(** * serverscom/prepare_data.py: the row transformer and its driver

    A shallow embedding of [process_data], [write_to_csv] and [main] of
    [focus_converter/conversion_configs/serverscom/prepare_data.py], with the
    parts of the Python runtime they use: [str.split(" ")], [" ".join],
    [float(str)], float division, [calendar.monthrange],
    [datetime.replace] and [datetime.strftime("%d.%m.%y")].

    Python strings are modelled by [string]; a character is a code point
    below 256.  Python floats are binary64 values, modelled by [spec_float]
    with precision 53 and maximal exponent 1024.  Records are dict objects
    living in a store and named by their address, because [process_data]
    updates the records it is given in place and returns the same objects. *)

From Stdlib Require Import ZArith String Ascii List Bool Lia SpecFloat.
From stdpp Require Import base option list gmap strings.

Local Open Scope string_scope.
Local Open Scope Z_scope.

(** ** Exceptions and results *)

Inductive value_error :=
  | CouldNotConvert (s : string)   (* float(s): could not convert string to float *)
  | DayOutOfRange                  (* datetime.replace: day is out of range for month *)
  | ExtraFields.                   (* DictWriter: dict contains fields not in fieldnames *)

Inductive exn :=
  | KeyError (key : string)
  | ValueError (why : value_error)
  | ZeroDivisionError
  | AttributeError
  | TypeError
  | IndexError
  | IllegalMonthError (month : Z)
  | FileNotFoundError (path : string).

Inductive result (A : Type) :=
  | Ok (a : A)
  | Raise (e : exn).
Arguments Ok {A} a.
Arguments Raise {A} e.

Definition bind {A B} (r : result A) (k : A -> result B) : result B :=
  match r with
  | Ok a => k a
  | Raise e => Raise e
  end.

Notation "x <- r ;; k" := (bind r (fun x => k))
  (at level 100, r at next level, right associativity).

(** ** Strings *)

Definition space : ascii := " "%char.

(** [s.split(" ")]: cut at every single space, empty pieces kept; the
    result is never empty. *)
Fixpoint split (s : string) : list string :=
  match s with
  | EmptyString => [EmptyString]
  | String c s' =>
      if Ascii.eqb c space then EmptyString :: split s'
      else match split s' with
           | w :: ws => String c w :: ws
           | [] => [String c EmptyString]
           end
  end.

(** [" ".join(parts)] *)
Definition join (parts : list string) : string := String.concat " " parts.

(** ** Dates *)

(** The date fields of a [datetime.datetime]; the time of day is not read
    by the transformer. *)
Record datetime := { year : Z; month : Z; day : Z }.

(** [calendar.mdays], [calendar.February], [calendar.isleap] *)
Definition mdays : list Z := [0; 31; 28; 31; 30; 31; 30; 31; 31; 30; 31; 30; 31].
Definition February : Z := 2.
Definition isleap (y : Z) : bool :=
  (y mod 4 =? 0) && (negb (y mod 100 =? 0) || (y mod 400 =? 0)).

(** [calendar.monthrange(year, month)[1]] *)
Definition monthrange_ndays (y m : Z) : result Z :=
  if negb ((1 <=? m) && (m <=? 12)) then Raise (IllegalMonthError m)
  else Ok (nth (Z.to_nat m) mdays 0 + (if (m =? February) && isleap y then 1 else 0)).

(** [datetime._days_in_month] *)
Definition days_in_month (y m : Z) : Z :=
  if (m =? 2) && isleap y then 29 else nth (Z.to_nat m) mdays 0.

(** The values a [datetime] can hold. *)
Definition valid_datetime (d : datetime) : bool :=
  (1 <=? year d) && (year d <=? 9999) && (1 <=? month d) && (month d <=? 12)
  && (1 <=? day d) && (day d <=? days_in_month (year d) (month d)).

(** [dt.replace(day=n)] *)
Definition replace_day (dt : datetime) (n : Z) : result datetime :=
  if (1 <=? n) && (n <=? days_in_month (year dt) (month dt))
  then Ok {| year := year dt; month := month dt; day := n |}
  else Raise (ValueError DayOutOfRange).

Definition digit_char (n : Z) : ascii := ascii_of_nat (Z.to_nat (48 + n)).

(** A number below 100 as two decimal digits. *)
Definition pad2 (n : Z) : string :=
  String (digit_char (n / 10)) (String (digit_char (n mod 10)) EmptyString).

(** [dt.strftime("%d.%m.%y")] *)
Definition strftime (dt : datetime) : string :=
  pad2 (day dt) ++ "." ++ pad2 (month dt) ++ "." ++ pad2 (year dt mod 100).

(** ** Floats *)

Definition float := spec_float.
Definition prec : Z := 53.
Definition emax : Z := 1024.

Definition is_digit (c : ascii) : bool :=
  let n := nat_of_ascii c in (48 <=? n)%nat && (n <=? 57)%nat.

Definition digit_val (c : ascii) : Z := Z.of_nat (nat_of_ascii c) - 48.

(** The characters [float] strips from both ends: tab, line feed, vertical
    tab, form feed, carriage return, space, and the two white space code
    points above 127 (next line, no-break space). *)
Definition is_space (c : ascii) : bool :=
  let n := nat_of_ascii c in
  ((9 <=? n)%nat && (n <=? 13)%nat) || (n =? 32)%nat || (n =? 133)%nat || (n =? 160)%nat.

Definition is_underscore (c : ascii) : bool := Ascii.eqb c "_"%char.

(** Underscores in a numeric literal: allowed only between two digits. *)
Fixpoint strip_underscores (prev : ascii) (s : list ascii) : option (list ascii) :=
  match s with
  | [] => if is_underscore prev then None else Some []
  | c :: s' =>
      if is_underscore c then
        if is_digit prev then strip_underscores c s' else None
      else if is_underscore prev && negb (is_digit c) then None
      else match strip_underscores c s' with
           | Some r => Some (c :: r)
           | None => None
           end
  end.

Fixpoint span (p : ascii -> bool) (s : list ascii) : list ascii * list ascii :=
  match s with
  | c :: s' => if p c then let (a, b) := span p s' in (c :: a, b) else ([], s)
  | [] => ([], [])
  end.

Definition strip (s : list ascii) : list ascii :=
  rev (snd (span is_space (rev (snd (span is_space s))))).

Definition to_lower (c : ascii) : ascii :=
  let n := nat_of_ascii c in
  if (65 <=? n)%nat && (n <=? 90)%nat then ascii_of_nat (n + 32) else c.

Definition digits_to_Z (ds : list ascii) : Z :=
  fold_left (fun acc c => 10 * acc + digit_val c) ds 0.

Definition take_sign (s : list ascii) : bool * list ascii :=
  match s with
  | c :: s' =>
      if Ascii.eqb c "-"%char then (true, s')
      else if Ascii.eqb c "+"%char then (false, s')
      else (false, s)
  | [] => (false, [])
  end.

(** digits [. digits] [(e|E) [sign] digits], at least one digit before the
    exponent, the whole text consumed: the mantissa as an integer and the
    power of ten that scales it. *)
Definition parse_decimal (s : list ascii) : option (Z * Z) :=
  let (ip, r1) := span is_digit s in
  let (fp, r2) := match r1 with
                  | c :: r => if Ascii.eqb c "."%char then span is_digit r else ([], r1)
                  | [] => ([], r1)
                  end in
  match (ip ++ fp)%list with
  | [] => None
  | _ :: _ =>
      let m := digits_to_Z (ip ++ fp)%list in
      let scale := - Z.of_nat (length fp) in
      match r2 with
      | [] => Some (m, scale)
      | c :: r3 =>
          if Ascii.eqb (to_lower c) "e"%char then
            let (neg, r4) := take_sign r3 in
            let (ed, r5) := span is_digit r4 in
            match ed, r5 with
            | _ :: _, [] =>
                let e := digits_to_Z ed in
                Some (m, (if neg then - e else e) + scale)
            | _, _ => None
            end
          else None
      end
  end.

(** The binary64 nearest to [m * 10^e] (ties to even); overflow gives an
    infinity, underflow a signed zero. *)
Definition decimal_to_float (neg : bool) (m e : Z) : float :=
  match m with
  | Zpos p =>
      if 0 <=? e then binary_normalize prec emax ((if neg then - m else m) * 10 ^ e) 0 neg
      else match 10 ^ (- e) with
           | Zpos q => SFdiv prec emax (S754_finite neg p 0) (S754_finite false q 0)
           | _ => S754_nan
           end
  | _ => S754_zero neg
  end.

(** [float(s)] for a string [s]; [None] stands for the [ValueError]. *)
Definition float_of_string (s : string) : option float :=
  match strip_underscores "000"%char (list_ascii_of_string s) with
  | None => None
  | Some t =>
      let (neg, body) := take_sign (strip t) in
      let low := string_of_list_ascii (map to_lower body) in
      if String.eqb low "inf" || String.eqb low "infinity" then Some (S754_infinity neg)
      else if String.eqb low "nan" then Some S754_nan
      else match parse_decimal body with
           | Some (m, e) => Some (decimal_to_float neg m e)
           | None => None
           end
  end.

Definition is_zero (x : float) : bool :=
  match x with
  | S754_zero _ => true
  | _ => false
  end.

(** [a / b] on floats *)
Definition float_div (a b : float) : result float :=
  if is_zero b then Raise ZeroDivisionError else Ok (SFdiv prec emax a b).

(** ** Values and dict objects *)

Inductive value :=
  | VStr (s : string)
  | VFloat (x : float).

(** A dict with string keys, in insertion order. *)
Definition dict (V : Type) : Type := list (string * V).

(** [d[k]] *)
Fixpoint getitem {V} (d : dict V) (k : string) : result V :=
  match d with
  | [] => Raise (KeyError k)
  | (k', v) :: d' => if String.eqb k' k then Ok v else getitem d' k
  end.

(** [d[k] = v]: an existing key keeps its place, a new key goes last. *)
Fixpoint setitem {V} (d : dict V) (k : string) (v : V) : dict V :=
  match d with
  | [] => [(k, v)]
  | (k', v') :: d' =>
      if String.eqb k' k then (k', v) :: d' else (k', v') :: setitem d' k v
  end.

(** [d.keys()] *)
Definition keys {V} (d : dict V) : list string := map fst d.

(** [d.get(k, default)] *)
Definition get {V} (d : dict V) (k : string) (default : V) : V :=
  match getitem d k with
  | Ok v => v
  | Raise _ => default
  end.

(** A row as read from the input: every value is a string. *)
Definition to_values (d : dict string) : dict value :=
  map (fun kv => (fst kv, VStr (snd kv))) d.

(** [v != ""] *)
Definition ne_empty (v : value) : bool :=
  match v with
  | VStr s => negb (String.eqb s "")
  | VFloat _ => true
  end.

(** [named_resources.get(v, "")]: the keys of the table are strings, a
    float is never among them. *)
Definition lookup_name (named_resources : gmap string string) (v : value) : string :=
  match v with
  | VStr s => default "" (named_resources !! s)
  | VFloat _ => ""
  end.

(** [v.split(" ")] *)
Definition split_value (v : value) : result (list string) :=
  match v with
  | VStr s => Ok (split s)
  | VFloat _ => Raise AttributeError
  end.

(** [l[i]] *)
Definition index {A} (l : list A) (i : nat) : result A :=
  match l !! i with
  | Some x => Ok x
  | None => Raise IndexError
  end.

(** An operand of [" ".join] must be a string. *)
Definition as_str (v : value) : result string :=
  match v with
  | VStr s => Ok s
  | VFloat _ => Raise TypeError
  end.

(** [float(v)] *)
Definition float_of_value (v : value) : result float :=
  match v with
  | VStr s =>
      match float_of_string s with
      | Some x => Ok x
      | None => Raise (ValueError (CouldNotConvert s))
      end
  | VFloat x => Ok x
  end.

(** ** process_data *)

(** The dict comprehension that builds [named_resources]: the records in
    order, a later record overwriting an earlier one with the same
    [service_id]. *)
Fixpoint build_named_resources (h : gmap nat (dict string)) (items : list nat)
    (acc : gmap string string) : result (gmap string string) :=
  match items with
  | [] => Ok acc
  | a :: rest =>
      let record := h !!! a in
      ppid <- getitem record "parent_service_id" ;;
      if String.eqb ppid "" then
        title <- getitem record "title" ;;
        if negb (String.eqb title "") then
          sid <- getitem record "service_id" ;;
          title' <- getitem record "title" ;;
          build_named_resources h rest (<[sid := title']> acc)
        else build_named_resources h rest acc
      else build_named_resources h rest acc
  end.

(** The body of the loop, on the dict object [record]. *)
Definition process_record (named_resources : gmap string string)
    (issue_date : datetime) (account_id account_name : string)
    (record : dict value) : result (dict value) :=
  ppid <- getitem record "parent_service_id" ;;
  record <-
    (if ne_empty ppid
     then ppid <- getitem record "parent_service_id" ;;
          Ok (setitem record "title" (VStr (lookup_name named_resources ppid)))
     else Ok record) ;;
  title <- getitem record "title" ;;
  words <- split_value title ;;
  first <- index words 0 ;;
  let record := setitem record "title" (VStr first) in
  let record := setitem record "billing_start" (VStr (strftime issue_date)) in
  ndays <- monthrange_ndays (year issue_date) (month issue_date) ;;
  last_day <- replace_day issue_date ndays ;;
  let record := setitem record "billing_end" (VStr (strftime last_day)) in
  let record := setitem record "billing_account_id" (VStr account_id) in
  let record := setitem record "billing_account_name" (VStr account_name) in
  title <- getitem record "title" ;;
  service_type <- getitem record "service_type" ;;
  description <- getitem record "description" ;;
  title <- as_str title ;;
  service_type <- as_str service_type ;;
  description <- as_str description ;;
  let record := setitem record "description"
                  (VStr (join [title; service_type; description])) in
  quantity <- getitem record "quantity" ;;
  pieces <- split_value quantity ;;
  usage_unit <-
    (if (1 <? length pieces)%nat
     then quantity <- getitem record "quantity" ;;
          pieces <- split_value quantity ;;
          index pieces 1
     else Ok "") ;;
  let record := setitem record "usage_unit" (VStr usage_unit) in
  quantity <- getitem record "quantity" ;;
  pieces <- split_value quantity ;;
  first <- index pieces 0 ;;
  let record := setitem record "quantity" (VStr first) in
  subotal <- getitem record "subotal" ;;
  subotal <- float_of_value subotal ;;
  quantity <- getitem record "quantity" ;;
  quantity <- float_of_value quantity ;;
  price <- float_div subotal quantity ;;
  Ok (setitem record "list_unit_price" (VFloat price)).

(** The loop over [items]: each record object is updated in the store and
    its address appended to [prepared_data].  An exception leaves the loop
    at once; the records updated so far stay updated, which no caller
    observes. *)
Fixpoint process_loop (named_resources : gmap string string)
    (issue_date : datetime) (account_id account_name : string)
    (h : gmap nat (dict value)) (items prepared_data : list nat)
    : result (gmap nat (dict value) * list nat) :=
  match items with
  | [] => Ok (h, prepared_data)
  | a :: rest =>
      record <- process_record named_resources issue_date account_id account_name (h !!! a) ;;
      process_loop named_resources issue_date account_id account_name
        (<[a := record]> h) rest (prepared_data ++ [a])
  end.

(** [process_data(items, issue_date, account_id, account_name)]: [items]
    lists the addresses of the records in the store [h]; the result is the
    store after the call and the list the function returns. *)
Definition process_data (h : gmap nat (dict string)) (items : list nat)
    (issue_date : datetime) (account_id account_name : string)
    : result (gmap nat (dict value) * list nat) :=
  named_resources <- build_named_resources h items ∅ ;;
  process_loop named_resources issue_date account_id account_name
    (to_values <$> h) items [].

(** ** write_to_csv and main *)

#[local] Set Warnings "-register-all".

Inductive message :=
  | Complete (output_file : string)   (* Processing complete. Output written to ... *)
  | Error (e : exn).                  (* Error: ... *)

(** What a run does to the outside: the file it asks to open for writing,
    the file it writes (the header and the rows that reached it) and the
    line it prints.  Whether a file can be opened is the outside's to say:
    [next] gives what the run does after the answer, [Ok tt] when the file
    is open, created or emptied, and [Raise e] when [open] raises [e] (an
    empty path, a directory, a missing directory, no permission) and leaves
    no file. *)
Inductive effect :=
  | Opening (path : string) (next : result unit -> list effect)
  | Wrote (path : string) (fieldnames : list string) (rows : list (list value))
  | Printed (m : message).

(** [DictWriter._dict_to_list]: a key outside [fieldnames] is an error, a
    missing one is written as the empty string. *)
Definition dict_to_list (fieldnames : list string) (row : dict value) : result (list value) :=
  if forallb (fun k => existsb (String.eqb k) fieldnames) (keys row)
  then Ok (map (fun k => get row k (VStr "")) fieldnames)
  else Raise (ValueError ExtraFields).

(** [writer.writerows(data)]: the rows written before the first bad one. *)
Fixpoint writerows (fieldnames : list string) (data : list (dict value))
    : list (list value) * result unit :=
  match data with
  | [] => ([], Ok tt)
  | row :: rest =>
      match dict_to_list fieldnames row with
      | Ok cells =>
          let (written, r) := writerows fieldnames rest in (cells :: written, r)
      | Raise e => ([], Raise e)
      end
  end.

(** [write_to_csv(output_file, fieldnames, data)], given the answer
    [opened] to its [open(output_file, "w", newline="")]: a refusal is
    raised before anything is written. *)
Definition write_to_csv (output_file : string) (fieldnames : list string)
    (data : list (dict value)) (opened : result unit) : list effect * result unit :=
  match opened with
  | Raise e => ([], Raise e)
  | Ok _ =>
      let (written, r) := writerows fieldnames data in
      ([Wrote output_file fieldnames written], r)
  end.

Record args := {
  input_file : string;
  invoice_date : datetime;
  output_file : string;
  billing_account_id : string;
  billing_account_name : string
}.

(** The rows read from a file are fresh dict objects: row [i] lives at
    address [i], and [read_items] lists the addresses in order. *)
Definition store_of (rows : list (dict string)) : gmap nat (dict string) :=
  map_seq 0 rows.
Definition addresses (rows : list (dict string)) : list nat :=
  seq 0 (length rows).

(** The default of [--invoice-date]: [datetime.datetime.now().replace(day=1)],
    for the date [now] the clock gives when the parser is built. *)
Definition default_invoice_date (now : datetime) : result datetime :=
  replace_day now 1.

(** [validate_input_file(input_file)] *)
Definition validate_input_file (files : gmap string (list (dict string)))
    (input_file : string) : result unit :=
  match files !! input_file with
  | Some _ => Ok tt
  | None => Raise (FileNotFoundError input_file)
  end.

(** [main], after the arguments are parsed.  [files] gives, for each path
    that is a file, the rows [csv.DictReader] yields for it, each with as
    many cells as the header.  What is printed is kept as the exception
    itself, not as its text. *)
Definition main (files : gmap string (list (dict string))) (a : args) : list effect :=
  match validate_input_file files (input_file a), files !! input_file a with
  | Raise e, _ => [Printed (Error e)]
  | Ok _, None => [Printed (Error (FileNotFoundError (input_file a)))]
  | Ok _, Some read_items =>
      match process_data (store_of read_items) (addresses read_items) (invoice_date a)
              (billing_account_id a) (billing_account_name a) with
      | Raise e => [Printed (Error e)]
      | Ok (h', prepared_data) =>
          match index prepared_data 0 with
          | Raise e => [Printed (Error e)]
          | Ok first =>
              let fieldnames := keys (h' !!! first) in
              [Opening (output_file a) (fun opened =>
                 match write_to_csv (output_file a) fieldnames
                         (map (fun r => h' !!! r) prepared_data) opened with
                 | (w, Ok _) => w ++ [Printed (Complete (output_file a))]
                 | (w, Raise e) => w ++ [Printed (Error e)]
                 end)%list]
          end
      end
  end.

(** ** Reference notions *)

(** The text before the first space. *)
Fixpoint before_space (s : string) : string :=
  match s with
  | EmptyString => EmptyString
  | String c s' => if Ascii.eqb c space then EmptyString else String c (before_space s')
  end.

(** White space, and the words of a text: its maximal runs of characters
    that are not white space. *)
Definition is_whitespace (c : ascii) : bool :=
  let n := nat_of_ascii c in ((9 <=? n)%nat && (n <=? 13)%nat) || (n =? 32)%nat.

Fixpoint tokens (s : string) : list string :=
  match s with
  | EmptyString => []
  | String c s' =>
      if is_whitespace c then tokens s'
      else match s' with
           | EmptyString => [String c EmptyString]
           | String c' _ =>
               if is_whitespace c' then String c EmptyString :: tokens s'
               else match tokens s' with
                    | w :: ws => String c w :: ws
                    | [] => [String c EmptyString]
                    end
           end
  end.

(** The record once the loop body has run, field by field. *)
Definition enriched (r : dict value) (title : string) (issue_date last_day : datetime)
    (account_id account_name service_type description quantity : string)
    (price : float) : dict value :=
  let r := setitem r "title" (VStr (before_space title)) in
  let r := setitem r "billing_start" (VStr (strftime issue_date)) in
  let r := setitem r "billing_end" (VStr (strftime last_day)) in
  let r := setitem r "billing_account_id" (VStr account_id) in
  let r := setitem r "billing_account_name" (VStr account_name) in
  let r := setitem r "description"
             (VStr (join [before_space title; service_type; description])) in
  let r := setitem r "usage_unit" (VStr (nth 1 (split quantity) "")) in
  let r := setitem r "quantity" (VStr (before_space quantity)) in
  setitem r "list_unit_price" (VFloat price).

(** The record with its title replaced by the parent's name, for a child. *)
Definition with_parent_title (named_resources : gmap string string)
    (r : dict value) (ppid : value) : dict value :=
  if ne_empty ppid then setitem r "title" (VStr (lookup_name named_resources ppid)) else r.

(** A top-level record that names its service: no parent, a title. *)
Definition top_level (r : dict string) (sid title : string) : Prop :=
  getitem r "parent_service_id" = Ok ""
  /\ getitem r "title" = Ok title
  /\ title <> ""
  /\ getitem r "service_id" = Ok sid.

(** [sid] is named [title] by the last top-level record of [items] that
    carries this [service_id]. *)
Definition last_named (h : gmap nat (dict string)) (items : list nat)
    (sid title : string) : Prop :=
  exists l1 a l2,
    items = (l1 ++ a :: l2)%list
    /\ top_level (h !!! a) sid title
    /\ forall b t, b ∈ l2 -> ~ top_level (h !!! b) sid t.

(** No top-level record of [items] with a title carries [sid]. *)
Definition unnamed (h : gmap nat (dict string)) (items : list nat) (sid : string) : Prop :=
  forall b t, b ∈ items -> ~ top_level (h !!! b) sid t.

(** The text fields the loop body reads before it comes to the numbers. *)
Definition has_text_fields (row : dict string) : Prop :=
  exists ppid title st ds,
    getitem row "parent_service_id" = Ok ppid
    /\ getitem row "title" = Ok title
    /\ getitem row "service_type" = Ok st
    /\ getitem row "description" = Ok ds.

(** [subotal] or the first piece of [quantity] is not a number. *)
Definition has_bad_number (row : dict string) : Prop :=
  (exists s, getitem row "subotal" = Ok s /\ float_of_string s = None)
  \/ (exists q, getitem row "quantity" = Ok q /\ float_of_string (before_space q) = None).

(** A row the loop body accepts: its fields are there, its numbers are
    numbers, and the quantity is not zero. *)
Definition transformable (row : dict string) : Prop :=
  has_text_fields row
  /\ (exists sid, getitem row "service_id" = Ok sid)
  /\ exists q s x y,
       getitem row "quantity" = Ok q
       /\ getitem row "subotal" = Ok s
       /\ float_of_string s = Some x
       /\ float_of_string (before_space q) = Some y
       /\ is_zero y = false.

(** What the table and the loop body ask of a row: the fields they read
    are there ([title] only without a parent, [service_id] only with a
    title and without a parent), the numbers are numbers, and the quantity
    is not zero. *)
Definition accepted (row : dict string) : Prop :=
  exists ppid st ds q s x y,
    getitem row "parent_service_id" = Ok ppid
    /\ (ppid = "" ->
        exists t, getitem row "title" = Ok t
                  /\ (t <> "" -> exists sid, getitem row "service_id" = Ok sid))
    /\ getitem row "service_type" = Ok st
    /\ getitem row "description" = Ok ds
    /\ getitem row "quantity" = Ok q
    /\ getitem row "subotal" = Ok s
    /\ float_of_string s = Some x
    /\ float_of_string (before_space q) = Some y
    /\ is_zero y = false.

(** The keys the loop body assigns, in the order of their first
    assignment. *)
Definition written_keys : list string :=
  ["title"; "billing_start"; "billing_end"; "billing_account_id";
   "billing_account_name"; "description"; "usage_unit"; "quantity";
   "list_unit_price"].

(** The keys of a dict once [written_keys] have been assigned: its own, in
    their order, then the new ones. *)
Definition keys_after (ks : list string) : list string :=
  (ks ++ filter (fun k => k ∉ ks) written_keys)%list.

(** The cells of a row under a header, a missing field left empty. *)
Definition cells (fieldnames : list string) (row : dict value) : list value :=
  map (fun k => get row k (VStr "")) fieldnames.

(** The Gregorian rule: every fourth year, but of the century years only
    every fourth. *)
Definition gregorian_leap (y : Z) : bool :=
  if y mod 400 =? 0 then true
  else if y mod 100 =? 0 then false
  else y mod 4 =? 0.

(** Thirty days have September, April, June and November; February has
    twenty-eight, and twenty-nine in a leap year; the others thirty-one. *)
Definition last_day_of_month (y m : Z) : Z :=
  if m =? 2 then (if gregorian_leap y then 29 else 28)
  else if (m =? 4) || (m =? 6) || (m =? 9) || (m =? 11) then 30
  else 31.

Definition first_of_month (d : datetime) : datetime :=
  {| year := year d; month := month d; day := 1 |}.

Definition end_of_month (d : datetime) : datetime :=
  {| year := year d; month := month d; day := last_day_of_month (year d) (month d) |}.

(** ** Sample dates, rows, batches and arguments *)

Definition mid_february : datetime := {| year := 2024; month := 2; day := 15 |}.
Definition first_february : datetime := {| year := 2024; month := 2; day := 1 |}.

(** 10.0 *)
Definition ten : float := S754_finite false 5629499534213120 (-49).

Definition tab : ascii := ascii_of_nat 9.

Definition compute_row : dict string :=
  [("service_id", "srv-1"); ("parent_service_id", ""); ("title", "Compute Instance Large");
   ("service_type", "server"); ("description", "monthly"); ("quantity", "5 hours");
   ("subotal", "50")].

(** The title with a tab between its two words. *)
Definition tabbed_row : dict string :=
  [("service_id", "srv-1"); ("parent_service_id", "");
   ("title", "Compute" ++ String tab "Instance");
   ("service_type", "server"); ("description", "monthly"); ("quantity", "5 hours");
   ("subotal", "50")].

(** The title with a space before its first word. *)
Definition spaced_row : dict string :=
  [("service_id", "srv-1"); ("parent_service_id", ""); ("title", " Compute Instance");
   ("service_type", "server"); ("description", "monthly"); ("quantity", "5 hours");
   ("subotal", "50")].

(** The quantity with two spaces before the unit. *)
Definition wide_row : dict string :=
  [("service_id", "srv-1"); ("parent_service_id", ""); ("title", "Compute Instance Large");
   ("service_type", "server"); ("description", "monthly"); ("quantity", "5  hours");
   ("subotal", "50")].

Definition renamed_row : dict string :=
  [("service_id", "srv-1"); ("parent_service_id", ""); ("title", "Storage Box");
   ("service_type", "storage"); ("description", "monthly"); ("quantity", "1");
   ("subotal", "7")].

Definition untitled_row : dict string :=
  [("service_id", "srv-1"); ("parent_service_id", ""); ("title", "");
   ("service_type", "server"); ("description", "monthly"); ("quantity", "1");
   ("subotal", "7")].

Definition child_row : dict string :=
  [("service_id", "srv-2"); ("parent_service_id", "srv-1"); ("title", "Backup Disk");
   ("service_type", "storage"); ("description", "daily"); ("quantity", "2");
   ("subotal", "3")].

Definition orphan_row : dict string :=
  [("service_id", "srv-3"); ("parent_service_id", "srv-9"); ("title", "Lost Disk");
   ("service_type", "storage"); ("description", "daily"); ("quantity", "2");
   ("subotal", "3")].

Definition zero_row : dict string :=
  [("service_id", "srv-1"); ("parent_service_id", ""); ("title", "Compute Instance Large");
   ("service_type", "server"); ("description", "monthly"); ("quantity", "0 hours");
   ("subotal", "50")].

Definition zero_row_bad_subotal : dict string :=
  [("service_id", "srv-1"); ("parent_service_id", ""); ("title", "Compute Instance Large");
   ("service_type", "server"); ("description", "monthly"); ("quantity", "0 hours");
   ("subotal", "abc")].

Definition bad_row : dict string :=
  [("service_id", "srv-4"); ("parent_service_id", ""); ("title", "Compute Instance Small");
   ("service_type", "server"); ("description", "monthly"); ("quantity", "many hours");
   ("subotal", "50")].

Definition family : gmap nat (dict string) :=
  {[ 0%nat := compute_row; 1%nat := child_row; 2%nat := orphan_row ]}.

Definition twins : gmap nat (dict string) :=
  {[ 0%nat := compute_row; 1%nat := renamed_row; 2%nat := child_row ]}.

Definition orphans : gmap nat (dict string) :=
  {[ 0%nat := untitled_row; 1%nat := child_row ]}.

Definition stepfamily : gmap nat (dict string) :=
  {[ 0%nat := untitled_row; 1%nat := compute_row; 2%nat := child_row ]}.

(** A child row without a [title] column and without a [service_id]. *)
Definition bare_child_row : dict string :=
  [("parent_service_id", "srv-1"); ("service_type", "storage");
   ("description", "daily"); ("quantity", "2 GB"); ("subotal", "3")].

(** A row without [parent_service_id]. *)
Definition headless_row : dict string :=
  [("service_id", "srv-5"); ("title", "Compute Instance Large");
   ("service_type", "server"); ("description", "monthly"); ("quantity", "many hours");
   ("subotal", "50")].

Definition default_args : args :=
  {| input_file := "input.csv";
     invoice_date := first_february;
     output_file := "output.csv";
     billing_account_id := "1";
     billing_account_name := "My organization" |}.

(** ** Dicts *)

Lemma getitem_setitem_eq {V} (d : dict V) k v : getitem (setitem d k v) k = Ok v.
Proof.
  induction d as [|[k' v'] d IH]; simpl.
  - now rewrite String.eqb_refl.
  - destruct (String.eqb k' k) eqn:E; simpl; rewrite E; auto.
Qed.

Lemma getitem_setitem_ne {V} (d : dict V) k k' v :
  k <> k' -> getitem (setitem d k v) k' = getitem d k'.
Proof.
  intros Hne. induction d as [|[k0 v0] d IH]; simpl.
  - apply String.eqb_neq in Hne. now rewrite Hne.
  - destruct (String.eqb k0 k) eqn:E; simpl.
    + apply String.eqb_eq in E. subst k0.
      apply String.eqb_neq in Hne. now rewrite Hne.
    + now rewrite IH.
Qed.

Lemma getitem_to_values (d : dict string) k :
  getitem (to_values d) k =
  match getitem d k with
  | Ok s => Ok (VStr s)
  | Raise e => Raise e
  end.
Proof.
  induction d as [|[k' v'] d IH]; simpl; [reflexivity|].
  destruct (String.eqb k' k); auto.
Qed.

Lemma getitem_to_values_Ok (d : dict string) k s :
  getitem d k = Ok s -> getitem (to_values d) k = Ok (VStr s).
Proof. intros H. now rewrite getitem_to_values, H. Qed.

Ltac dict_simpl :=
  repeat first
    [ rewrite getitem_setitem_eq
    | rewrite getitem_setitem_ne by discriminate ].

Ltac dict_simpl_in H :=
  repeat first
    [ rewrite getitem_setitem_eq in H
    | rewrite getitem_setitem_ne in H by discriminate ].

(** ** Splitting at spaces *)

Lemma split_cons (s : string) : exists w ws, split s = w :: ws /\ w = before_space s.
Proof.
  induction s as [|c s IH]; simpl.
  - eauto.
  - destruct (Ascii.eqb c space); [eauto|].
    destruct IH as (w & ws & -> & ->). eauto.
Qed.

Lemma index_split_0 (s : string) : index (split s) 0 = Ok (before_space s).
Proof. destruct (split_cons s) as (w & ws & -> & ->). reflexivity. Qed.

Lemma before_space_no_space (s : string) : split (before_space s) = [before_space s].
Proof.
  induction s as [|c s IH]; simpl; [reflexivity|].
  destruct (Ascii.eqb c space) eqn:E; simpl; [reflexivity|].
  now rewrite E, IH.
Qed.

Lemma before_space_idem (s : string) : before_space (before_space s) = before_space s.
Proof.
  pose proof (split_cons (before_space s)) as (w & ws & Hs & ->).
  rewrite before_space_no_space in Hs. congruence.
Qed.

(** What [before_space] returns: a prefix without a space, followed by
    nothing or by a space. *)
Lemma before_space_spec (s : string) :
  exists rest, s = before_space s ++ rest
    /\ (rest = "" \/ exists rest', rest = String space rest')
    /\ forall c, In c (list_ascii_of_string (before_space s)) -> c <> space.
Proof.
  induction s as [|c s (rest & Hs & Hrest & Hno)]; simpl.
  - exists "". simpl. intuition.
  - destruct (Ascii.eqb c space) eqn:E.
    + apply Ascii.eqb_eq in E. subst c. exists (String space s). simpl.
      split; [reflexivity|]. split; [eauto|]. intros c [].
    + exists rest. simpl. split.
      { change (String c s = String c (before_space s ++ rest)). now f_equal. } split; [assumption|].
      intros c' [<-|Hin]; [|now apply Hno].
      intros ->. now rewrite Ascii.eqb_refl in E.
Qed.

Lemma second_piece (s : string) :
  (if (1 <? length (split s))%nat then index (split s) 1 else Ok "")
  = Ok (nth 1 (split s) "").
Proof.
  destruct (split s) as [|w [|w' ws]]; reflexivity.
Qed.

(** ** The loop body *)

Ltac norm_in H Hst :=
  repeat progress
    (dict_simpl_in H;
     rewrite ?Hst in H by discriminate;
     rewrite ?index_split_0, ?second_piece in H;
     repeat match goal with
       | E : ?t = Ok _ |- _ =>
           lazymatch E with H => fail | _ => idtac end;
           match type of H with context [t] => rewrite E in H end
       end;
     cbn [bind split_value as_str float_of_value] in H).

Ltac bind_inv H :=
  match type of H with
  | bind ?r _ = Ok _ =>
      let E := fresh "E" in
      destruct r eqn:E; cbn [bind] in H; [|discriminate H]
  end.

Lemma with_parent_title_Ok nr (r : dict value) ppid :
  (if ne_empty ppid
   then Ok (setitem r "title" (VStr (lookup_name nr ppid)))
   else Ok r) = Ok (with_parent_title nr r ppid).
Proof. unfold with_parent_title. now destruct (ne_empty ppid). Qed.

Lemma process_record_inv nr d aid an r r' :
  process_record nr d aid an r = Ok r' ->
  exists ppid title st ds q sub x y n last,
    getitem r "parent_service_id" = Ok ppid
    /\ getitem (with_parent_title nr r ppid) "title" = Ok (VStr title)
    /\ getitem r "service_type" = Ok (VStr st)
    /\ getitem r "description" = Ok (VStr ds)
    /\ getitem r "quantity" = Ok (VStr q)
    /\ getitem r "subotal" = Ok sub
    /\ float_of_value sub = Ok x
    /\ float_of_string (before_space q) = Some y
    /\ is_zero y = false
    /\ monthrange_ndays (year d) (month d) = Ok n
    /\ replace_day d n = Ok last
    /\ r' = enriched (with_parent_title nr r ppid) title d last aid an st ds q
              (SFdiv prec emax x y).
Proof.
  unfold process_record. intros H.
  bind_inv H. rename a into ppid.
  rewrite (with_parent_title_Ok nr r ppid) in H. cbn [bind] in H.
  assert (Hst : forall k, k <> "title" ->
            getitem (with_parent_title nr r ppid) k = getitem r k).
  { intros k Hk. unfold with_parent_title.
    destruct (ne_empty ppid); [|reflexivity].
    apply getitem_setitem_ne. congruence. }
  set (r1 := with_parent_title nr r ppid) in *.
  bind_inv H. destruct a as [title|]; cbn [split_value bind] in H; [|discriminate H].
  norm_in H Hst.
  bind_inv H. rename a into n. bind_inv H. rename a into last.
  norm_in H Hst.
  bind_inv H. bind_inv H.
  destruct a as [st|]; norm_in H Hst; [|discriminate H].
  destruct a0 as [ds|]; norm_in H Hst; [|discriminate H].
  bind_inv H. destruct a as [q|]; norm_in H Hst; [|discriminate H].
  bind_inv H. rename a into sub. bind_inv H. rename a into x.
  norm_in H Hst.
  destruct (float_of_string (before_space q)) as [y|] eqn:Ey; cbn [bind] in H;
    [|discriminate H].
  unfold float_div in H. destruct (is_zero y) eqn:Ez; cbn [bind] in H; [discriminate H|].
  injection H as <-.
  exists ppid, title, st, ds, q, sub, x, y, n, last.
  repeat split; auto.
Qed.

(** The loop body, run forward on a record whose text fields are there. *)
Lemma process_record_run nr d aid an r ppid title st ds q n last :
  getitem r "parent_service_id" = Ok ppid ->
  getitem (with_parent_title nr r ppid) "title" = Ok (VStr title) ->
  getitem r "service_type" = Ok (VStr st) ->
  getitem r "description" = Ok (VStr ds) ->
  getitem r "quantity" = Ok (VStr q) ->
  monthrange_ndays (year d) (month d) = Ok n ->
  replace_day d n = Ok last ->
  process_record nr d aid an r =
    (sub <- getitem r "subotal" ;;
     x <- float_of_value sub ;;
     y <- float_of_value (VStr (before_space q)) ;;
     price <- float_div x y ;;
     Ok (enriched (with_parent_title nr r ppid) title d last aid an st ds q price)).
Proof.
  intros Hp Ht Hs Hd Hq Hn Hl.
  assert (Hst : forall k, k <> "title" ->
            getitem (with_parent_title nr r ppid) k = getitem r k).
  { intros k Hk. unfold with_parent_title.
    destruct (ne_empty ppid); [|reflexivity].
    apply getitem_setitem_ne. congruence. }
  unfold process_record. rewrite Hp. cbn [bind].
  rewrite (with_parent_title_Ok nr r ppid). cbn [bind].
  set (r1 := with_parent_title nr r ppid) in *.
  rewrite Ht. cbn [bind split_value]. rewrite index_split_0. cbn [bind].
  rewrite Hn. cbn [bind]. rewrite Hl. cbn [bind].
  dict_simpl. rewrite !Hst by discriminate. rewrite Hs, Hd. cbn [bind as_str].
  dict_simpl. rewrite !Hst by discriminate. rewrite Hq. cbn [bind split_value].
  rewrite second_piece. cbn [bind]. dict_simpl. rewrite !Hst by discriminate.
  rewrite Hq. cbn [bind split_value]. rewrite index_split_0. cbn [bind].
  dict_simpl. rewrite !Hst by discriminate.
  reflexivity.
Qed.

(** ** The loop over the records *)

Section Loop.

Variable nr : gmap string string.
Variable d : datetime.
Variables aid an : string.

Local Abbreviation step := (process_record nr d aid an).
Local Abbreviation loop := (process_loop nr d aid an).

Lemma process_loop_prepared (items : list nat) :
  forall (h : gmap nat (dict value)) p h' out,
    loop h items p = Ok (h', out) -> out = (p ++ items)%list.
Proof.
  induction items as [|a items IH]; intros h p h' out H; simpl in H.
  - injection H as _ <-. now rewrite app_nil_r.
  - bind_inv H. apply IH in H. rewrite H, <- app_assoc. reflexivity.
Qed.

Lemma process_loop_app (l1 l2 : list nat) :
  forall (h : gmap nat (dict value)) p,
    loop h (l1 ++ l2) p =
    match loop h l1 p with
    | Ok (h1, p1) => loop h1 l2 p1
    | Raise e => Raise e
    end.
Proof.
  induction l1 as [|a l1 IH]; intros h p; simpl; [reflexivity|].
  destruct (step (h !!! a)) as [r|e]; cbn [bind]; [|reflexivity].
  apply IH.
Qed.

(** A record is first met in the state it had before the call. *)
Lemma process_loop_first (items : list nat) (a : nat) :
  forall (h : gmap nat (dict value)) p h' out,
    loop h items p = Ok (h', out) -> a ∈ items ->
    exists r', step (h !!! a) = Ok r'.
Proof.
  induction items as [|b items IH]; intros h p h' out H Hin.
  - inversion Hin.
  - simpl in H. bind_inv H.
    destruct (decide (a = b)) as [->|Hne]; [eauto|].
    apply elem_of_cons in Hin as [?|Hin]; [contradiction|].
    destruct (IH _ _ _ _ H Hin) as [r' Hr'].
    rewrite lookup_total_insert_ne in Hr' by congruence. eauto.
Qed.

(** A record that is not in the list is left alone. *)
Lemma process_loop_other (items : list nat) (a : nat) :
  forall (h : gmap nat (dict value)) p h' out,
    loop h items p = Ok (h', out) -> a ∉ items -> h' !!! a = h !!! a.
Proof.
  induction items as [|b items IH]; intros h p h' out H Hin; simpl in H.
  - now injection H as <- _.
  - bind_inv H. apply not_elem_of_cons in Hin as [Hne Hin].
    rewrite (IH _ _ _ _ H Hin). apply lookup_total_insert_ne. congruence.
Qed.

(** What holds of a record after its first pass and is kept by every later
    pass holds of it at the end. *)
Lemma process_loop_inv (I J : dict value -> Prop) (items : list nat) (a : nat) :
  (forall r r', I r -> step r = Ok r' -> J r') ->
  (forall r r', J r -> step r = Ok r' -> J r') ->
  forall (h : gmap nat (dict value)) p h' out,
    loop h items p = Ok (h', out) ->
    J (h !!! a) \/ (I (h !!! a) /\ a ∈ items) ->
    J (h' !!! a).
Proof.
  intros HI HJ.
  induction items as [|b items IH]; intros h p h' out H Hor; simpl in H.
  - injection H as <- _. destruct Hor as [HJa|[_ Hin]]; [assumption|inversion Hin].
  - bind_inv H. apply (IH _ _ _ _ H).
    destruct (decide (a = b)) as [->|Hne].
    + left. rewrite lookup_total_insert_eq.
      destruct Hor as [HJa|[HIa _]]; eauto.
    + rewrite lookup_total_insert_ne by congruence.
      destruct Hor as [HJa|[HIa Hin]]; [now left|right].
      split; [assumption|].
      apply elem_of_cons in Hin as [?|Hin]; [contradiction|assumption].
Qed.

(** A record listed once ends as one pass leaves it. *)
Lemma process_loop_once (l1 l2 : list nat) (a : nat) :
  forall (h : gmap nat (dict value)) p h' out,
    loop h (l1 ++ a :: l2) p = Ok (h', out) -> a ∉ l1 -> a ∉ l2 ->
    step (h !!! a) = Ok (h' !!! a).
Proof.
  intros h p h' out H H1 H2. rewrite process_loop_app in H.
  destruct (loop h l1 p) as [[h1 p1]|e] eqn:E1; [|discriminate H].
  simpl in H. bind_inv H.
  rewrite (process_loop_other _ _ _ _ _ _ H H2), lookup_total_insert_eq.
  rewrite <- (process_loop_other _ _ _ _ _ _ E1 H1). assumption.
Qed.

(** Distinct records that each pass the loop body pass the loop. *)
Lemma process_loop_distinct (items : list nat) :
  forall (h : gmap nat (dict value)) p,
    NoDup items ->
    (forall a, a ∈ items -> exists r', step (h !!! a) = Ok r') ->
    exists h', loop h items p = Ok (h', (p ++ items)%list).
Proof.
  induction items as [|a items IH]; intros h p Hnd Hall; simpl.
  - exists h. now rewrite app_nil_r.
  - apply NoDup_cons in Hnd as [Hnotin Hnd].
    destruct (Hall a) as [r' Hr']; [left|]. rewrite Hr'. cbn [bind].
    destruct (IH (<[a:=r']> h) (p ++ [a])%list Hnd) as [h' Hh'].
    + intros b Hb. rewrite lookup_total_insert_ne by (intros ->; contradiction).
      apply Hall. now right.
    + exists h'. now rewrite Hh', <- app_assoc.
Qed.

(** The first record that fails decides the exception. *)
Lemma process_loop_first_failure (l1 l2 : list nat) (a : nat) (e : exn) :
  forall (h : gmap nat (dict value)) p,
    NoDup l1 -> a ∉ l1 ->
    (forall b, b ∈ l1 -> exists r', step (h !!! b) = Ok r') ->
    step (h !!! a) = Raise e ->
    loop h (l1 ++ a :: l2) p = Raise e.
Proof.
  intros h p Hnd Hnotin Hall Hfail. rewrite process_loop_app.
  destruct (process_loop_distinct l1 h p Hnd Hall) as [h1 E1]. rewrite E1.
  simpl. rewrite (process_loop_other _ _ _ _ _ _ E1 Hnotin), Hfail. reflexivity.
Qed.

End Loop.

(** ** The name table *)

Lemma top_level_fun r sid t sid' t' :
  top_level r sid t -> top_level r sid' t' -> sid = sid' /\ t = t'.
Proof. intros (_ & H1 & _ & H2) (_ & H1' & _ & H2'). split; congruence. Qed.

Lemma last_named_cons h a items sid t :
  last_named h (a :: items) sid t <->
  last_named h items sid t \/ (top_level (h !!! a) sid t /\ unnamed h items sid).
Proof.
  split.
  - intros (l1 & b & l2 & Heq & Htop & Hlast).
    destruct l1 as [|c l1]; simpl in Heq; injection Heq as -> ->.
    + right. split; [assumption|]. exact Hlast.
    + left. exists l1, b, l2. auto.
  - intros [(l1 & b & l2 & -> & Htop & Hlast)|[Htop Hun]].
    + exists (a :: l1), b, l2. auto.
    + exists [], a, items. auto.
Qed.

Lemma unnamed_cons h a items sid :
  unnamed h (a :: items) sid <->
  (forall t, ~ top_level (h !!! a) sid t) /\ unnamed h items sid.
Proof.
  unfold unnamed. split.
  - intros H. split; [intros t; apply H; left|intros b t Hb; apply H; now right].
  - intros [Ha H] b t Hb. apply elem_of_cons in Hb as [->|Hb]; auto.
Qed.

Lemma build_named_resources_spec h items :
  forall acc nr,
    build_named_resources h items acc = Ok nr ->
    forall sid t,
      nr !! sid = Some t <->
      last_named h items sid t \/ (acc !! sid = Some t /\ unnamed h items sid).
Proof.
  induction items as [|a items IH]; intros acc nr H sid t.
  - simpl in H. injection H as <-. split.
    + intros Hl. right. split; [assumption|]. intros b t' Hb. inversion Hb.
    + intros [(l1 & b & l2 & Heq & _)|[Hl _]]; [|assumption].
      now destruct l1.
  - simpl in H. rewrite last_named_cons, unnamed_cons.
    bind_inv H. rename a0 into ppid.
    destruct (String.eqb ppid "") eqn:Ep.
    + apply String.eqb_eq in Ep. subst ppid.
      bind_inv H. rename a0 into title.
      destruct (String.eqb title "") eqn:Et; cbn [negb] in H.
      * apply String.eqb_eq in Et. subst title.
        assert (Hno : forall s' t', ~ top_level (h !!! a) s' t').
        { intros s' t' (_ & Ht & Hne & _). congruence. }
        rewrite (IH _ _ H). split.
        -- intros [?|[? ?]]; auto.
        -- intros [[?|[Htop _]]|[? [_ ?]]]; auto. now apply Hno in Htop.
      * apply String.eqb_neq in Et.
        bind_inv H. rename a0 into sid0.
        assert (Htop : top_level (h !!! a) sid0 title) by (repeat split; assumption).
        rewrite (IH _ _ H). rewrite lookup_insert.
        destruct (decide (sid0 = sid)) as [->|Hne].
        -- split.
           ++ intros [?|[[= ->] ?]]; auto.
           ++ intros [[?|[Htop' ?]]|[_ [Hno _]]]; auto.
              ** destruct (top_level_fun _ _ _ _ _ Htop Htop') as [_ ->]. auto.
              ** now apply Hno in Htop.
        -- assert (Hno : forall t', ~ top_level (h !!! a) sid t').
           { intros t' Htop'. destruct (top_level_fun _ _ _ _ _ Htop Htop'). auto. }
           split.
           ++ intros [?|[? ?]]; auto.
           ++ intros [[?|[Htop' _]]|[? [_ ?]]]; auto. now apply Hno in Htop'.
    + apply String.eqb_neq in Ep.
      assert (Hno : forall s' t', ~ top_level (h !!! a) s' t').
      { intros s' t' (Hp & _). congruence. }
      rewrite (IH _ _ H). split.
      * intros [?|[? ?]]; auto.
      * intros [[?|[Htop _]]|[? [_ ?]]]; auto. now apply Hno in Htop.
Qed.

(** The table is built whenever the three fields it reads are there. *)
Lemma build_named_resources_total h items :
  (forall a k, a ∈ items -> k ∈ ["parent_service_id"; "title"; "service_id"] ->
     exists v, getitem (h !!! a) k = Ok v) ->
  forall acc, exists nr, build_named_resources h items acc = Ok nr.
Proof.
  induction items as [|a items IH]; intros Hk acc; simpl; [eauto|].
  destruct (Hk a "parent_service_id") as [ppid ->]; [left|set_solver|].
  destruct (Hk a "title") as [title ->]; [left|set_solver|].
  destruct (Hk a "service_id") as [sid ->]; [left|set_solver|].
  cbn [bind].
  assert (Hk' : forall b k, b ∈ items ->
            k ∈ ["parent_service_id"; "title"; "service_id"] ->
            exists v, getitem (h !!! b) k = Ok v).
  { intros b k Hb. apply Hk. now right. }
  destruct (String.eqb ppid ""); [|now apply IH].
  destruct (String.eqb title ""); cbn [negb bind]; now apply IH.
Qed.

(** ** Calendar *)

Lemma isleap_gregorian (y : Z) : isleap y = gregorian_leap y.
Proof.
  unfold isleap, gregorian_leap.
  destruct (y mod 400 =? 0) eqn:E400, (y mod 100 =? 0) eqn:E100,
    (y mod 4 =? 0) eqn:E4; try reflexivity; exfalso;
    rewrite ?Z.eqb_eq, ?Z.eqb_neq in *;
    Z.div_mod_to_equations; lia.
Qed.

Lemma month_cases (m : Z) :
  1 <= m <= 12 ->
  m = 1 \/ m = 2 \/ m = 3 \/ m = 4 \/ m = 5 \/ m = 6 \/
  m = 7 \/ m = 8 \/ m = 9 \/ m = 10 \/ m = 11 \/ m = 12.
Proof. lia. Qed.

Lemma days_in_month_last (y m : Z) :
  1 <= m <= 12 -> days_in_month y m = last_day_of_month y m.
Proof.
  intros Hm. unfold days_in_month, last_day_of_month.
  rewrite isleap_gregorian.
  destruct (month_cases m Hm) as [->|[->|[->|[->|[->|[->|[->|[->|[->|[->|[->| ->]]]]]]]]]]];
    simpl; try reflexivity; destruct (gregorian_leap y); reflexivity.
Qed.

Lemma monthrange_last (y m : Z) :
  1 <= m <= 12 -> monthrange_ndays y m = Ok (last_day_of_month y m).
Proof.
  intros Hm. unfold monthrange_ndays, last_day_of_month, February.
  rewrite isleap_gregorian.
  destruct (month_cases m Hm) as [->|[->|[->|[->|[->|[->|[->|[->|[->|[->|[->| ->]]]]]]]]]]];
    simpl; try reflexivity; destruct (gregorian_leap y); reflexivity.
Qed.

Lemma last_day_bounds (y m : Z) : 28 <= last_day_of_month y m <= 31.
Proof.
  unfold last_day_of_month.
  destruct (m =? 2); [destruct (gregorian_leap y); lia|].
  destruct ((m =? 4) || (m =? 6) || (m =? 9) || (m =? 11)); lia.
Qed.

Lemma valid_datetime_spec (d : datetime) :
  valid_datetime d = true ->
  1 <= year d <= 9999 /\ 1 <= month d <= 12
  /\ 1 <= day d <= last_day_of_month (year d) (month d).
Proof.
  unfold valid_datetime. rewrite !andb_true_iff, !Z.leb_le.
  intros [[[[[? ?] ?] ?] ?] Hd].
  rewrite days_in_month_last in Hd by lia. lia.
Qed.

(** On a date that exists, the day is replaced by the last of its month. *)
Lemma billing_end_date (d : datetime) :
  valid_datetime d = true ->
  monthrange_ndays (year d) (month d) = Ok (last_day_of_month (year d) (month d))
  /\ replace_day d (last_day_of_month (year d) (month d)) = Ok (end_of_month d).
Proof.
  intros Hv. apply valid_datetime_spec in Hv as (_ & Hm & _).
  split; [now apply monthrange_last|].
  unfold replace_day. rewrite days_in_month_last by assumption.
  pose proof (last_day_bounds (year d) (month d)).
  replace (1 <=? last_day_of_month (year d) (month d)) with true
    by (symmetry; apply Z.leb_le; lia).
  now rewrite Z.leb_refl.
Qed.

Lemma digit_char_inj (a b : Z) :
  0 <= a <= 9 -> 0 <= b <= 9 -> digit_char a = digit_char b -> a = b.
Proof.
  intros Ha Hb H. apply (f_equal nat_of_ascii) in H. unfold digit_char in H.
  rewrite !nat_ascii_embedding in H by lia. lia.
Qed.

Lemma pad2_inj (a b : Z) : 0 <= a <= 99 -> 0 <= b <= 99 -> pad2 a = pad2 b -> a = b.
Proof.
  intros Ha Hb H. unfold pad2 in H. injection H as H1 H2.
  apply digit_char_inj in H1; [|Z.div_mod_to_equations; lia..].
  apply digit_char_inj in H2; [|Z.div_mod_to_equations; lia..].
  Z.div_mod_to_equations; lia.
Qed.

Lemma strftime_day (d d' : datetime) :
  year d = year d' -> month d = month d' ->
  0 <= day d <= 99 -> 0 <= day d' <= 99 ->
  strftime d = strftime d' <-> day d = day d'.
Proof.
  intros Hy Hm Hd Hd'. split.
  - unfold strftime, pad2. intros H. injection H as H1 H2.
    apply pad2_inj; try assumption. unfold pad2. congruence.
  - intros H. unfold strftime. now rewrite Hy, Hm, H.
Qed.

(** ** process_data as a whole *)

Lemma lookup_to_values (h : gmap nat (dict string)) (a : nat) :
  (to_values <$> h) !!! a = to_values (h !!! a).
Proof. rewrite lookup_total_fmap, lookup_total_alt. now destruct (h !! a). Qed.

Lemma getitem_to_values_inv (r : dict string) k v :
  getitem (to_values r) k = Ok v -> exists s, v = VStr s /\ getitem r k = Ok s.
Proof.
  rewrite getitem_to_values. destruct (getitem r k); [|discriminate].
  intros [= <-]. eauto.
Qed.

Lemma process_data_inv h items d aid an h' out :
  process_data h items d aid an = Ok (h', out) ->
  exists nr,
    build_named_resources h items ∅ = Ok nr
    /\ process_loop nr d aid an (to_values <$> h) items [] = Ok (h', out).
Proof. unfold process_data. intros H. bind_inv H. eauto. Qed.

Section Enriched.

Variables (r : dict value) (title : string) (d last : datetime).
Variables (aid an st ds q : string) (price : float).

Local Abbreviation r' := (enriched r title d last aid an st ds q price).

Lemma enriched_title : getitem r' "title" = Ok (VStr (before_space title)).
Proof. unfold enriched. cbv zeta. now dict_simpl. Qed.

Lemma enriched_billing_start : getitem r' "billing_start" = Ok (VStr (strftime d)).
Proof. unfold enriched. cbv zeta. now dict_simpl. Qed.

Lemma enriched_billing_end : getitem r' "billing_end" = Ok (VStr (strftime last)).
Proof. unfold enriched. cbv zeta. now dict_simpl. Qed.

Lemma enriched_usage_unit : getitem r' "usage_unit" = Ok (VStr (nth 1 (split q) "")).
Proof. unfold enriched. cbv zeta. now dict_simpl. Qed.

Lemma enriched_quantity : getitem r' "quantity" = Ok (VStr (before_space q)).
Proof. unfold enriched. cbv zeta. now dict_simpl. Qed.

Lemma enriched_list_unit_price : getitem r' "list_unit_price" = Ok (VFloat price).
Proof. unfold enriched. cbv zeta. now dict_simpl. Qed.

Lemma enriched_parent_service_id :
  getitem r' "parent_service_id" = getitem r "parent_service_id".
Proof. unfold enriched. cbv zeta. now dict_simpl. Qed.

Lemma enriched_subotal : getitem r' "subotal" = getitem r "subotal".
Proof. unfold enriched. cbv zeta. now dict_simpl. Qed.

End Enriched.

Lemma with_parent_title_other nr r ppid k :
  k <> "title" -> getitem (with_parent_title nr r ppid) k = getitem r k.
Proof.
  intros Hk. unfold with_parent_title. destruct (ne_empty ppid); [|reflexivity].
  apply getitem_setitem_ne. congruence.
Qed.

(** A field that every pass sets to the same value has it at the end. *)
Lemma process_data_field h items d aid an h' out a k v :
  process_data h items d aid an = Ok (h', out) ->
  a ∈ items ->
  (forall nr r r', process_record nr d aid an r = Ok r' -> getitem r' k = Ok v) ->
  getitem (h' !!! a) k = Ok v.
Proof.
  intros H Hin Hk. apply process_data_inv in H as (nr & _ & H).
  apply (process_loop_inv nr d aid an (fun _ => True) (fun r => getitem r k = Ok v)
           items a) with (h := to_values <$> h) (p := []) (out := out); eauto.
Qed.

(** C1, as the code has it.  In every record of a batch that is
    transformed, [billing_start] is the issue date itself, written
    DD.MM.YY; it is the first day of the issue month exactly when the
    issue date is. *)
Theorem billing_start_is_issue_date h items d aid an h' out a :
  valid_datetime d = true ->
  process_data h items d aid an = Ok (h', out) ->
  a ∈ items ->
  getitem (h' !!! a) "billing_start" = Ok (VStr (strftime d))
  /\ (strftime d = strftime (first_of_month d) <-> day d = 1).
Proof.
  intros Hv H Hin. split.
  - apply (process_data_field _ _ _ _ _ _ _ _ _ _ H Hin).
    intros nr r r' Hr. apply process_record_inv in Hr.
    destruct Hr as (? & ? & ? & ? & ? & ? & ? & ? & ? & ? & Hr). 
    destruct Hr as (_ & _ & _ & _ & _ & _ & _ & _ & _ & _ & _ & ->).
    apply enriched_billing_start.
  - apply valid_datetime_spec in Hv as (_ & _ & Hd).
    pose proof (last_day_bounds (year d) (month d)).
    apply strftime_day; simpl; auto; lia.
Qed.

Lemma billing_start_is_issue_date_witness :
  exists h',
    process_data {[ 0%nat := compute_row ]} [0%nat] first_february "1" "My organization"
      = Ok (h', [0%nat])
    /\ getitem (h' !!! 0%nat) "billing_start" = Ok (VStr "01.02.24").
Proof.
  eexists. split; [vm_compute; reflexivity|].
  refine (proj1 (billing_start_is_issue_date {[ 0%nat := compute_row ]} [0%nat]
            first_february "1" "My organization" _ [0%nat] 0%nat _ _ _)).
  - reflexivity.
  - vm_compute. reflexivity.
  - left.
Defined.

(** C1 as worded fails in the middle of a month: for the issue date
    15.02.2024 the field is 15.02.24, the first day of that month is
    01.02.24. *)
Lemma billing_start_mid_month :
  exists h',
    process_data {[ 0%nat := compute_row ]} [0%nat] mid_february "1" "My organization"
      = Ok (h', [0%nat])
    /\ getitem (h' !!! 0%nat) "billing_start" = Ok (VStr "15.02.24")
    /\ strftime (first_of_month mid_february) = "01.02.24"
    /\ getitem (h' !!! 0%nat) "billing_start"
         <> Ok (VStr (strftime (first_of_month mid_february))).
Proof.
  eexists. split; [vm_compute; reflexivity|].
  split; [vm_compute; reflexivity|]. split; [vm_compute; reflexivity|].
  vm_compute. discriminate.
Qed.

Ltac record_inv H :=
  apply process_record_inv in H;
  destruct H as (?ppid & ?title & ?st & ?ds & ?q & ?sub & ?x & ?y & ?n & ?last &
                 ?Hppid & ?Htitle & ?Hst & ?Hds & ?Hq & ?Hsub & ?Hx & ?Hy & ?Hz &
                 ?Hn & ?Hlast & ?Hr').

(** C2.  On a date that exists, [billing_end] of every record of a batch
    that is transformed is the last calendar day of the issue month, leap
    years counted, written DD.MM.YY; for the issue date 2024-02-01 the two
    fields are 01.02.24 and 29.02.24. *)
Theorem billing_end_is_last_day h items d aid an h' out a :
  valid_datetime d = true ->
  process_data h items d aid an = Ok (h', out) ->
  a ∈ items ->
  getitem (h' !!! a) "billing_end" = Ok (VStr (strftime (end_of_month d)))
  /\ (d = first_february ->
      getitem (h' !!! a) "billing_start" = Ok (VStr "01.02.24")
      /\ getitem (h' !!! a) "billing_end" = Ok (VStr "29.02.24")).
Proof.
  intros Hv H Hin.
  assert (Hend : getitem (h' !!! a) "billing_end" = Ok (VStr (strftime (end_of_month d)))).
  { apply (process_data_field _ _ _ _ _ _ _ _ _ _ H Hin).
    intros nr r r' Hr. record_inv Hr. subst r'.
    destruct (billing_end_date d Hv) as [Hn' Hl'].
    rewrite Hn' in Hn. injection Hn as <-. rewrite Hl' in Hlast. injection Hlast as <-.
    apply enriched_billing_end. }
  split; [exact Hend|]. intros ->. split; [|exact Hend].
  apply (process_data_field _ _ _ _ _ _ _ _ _ _ H Hin).
  intros nr r r' Hr. record_inv Hr. subst r'. apply enriched_billing_start.
Qed.

Lemma billing_end_is_last_day_witness :
  exists h',
    process_data {[ 0%nat := compute_row ]} [0%nat] first_february "1" "My organization"
      = Ok (h', [0%nat])
    /\ getitem (h' !!! 0%nat) "billing_start" = Ok (VStr "01.02.24")
    /\ getitem (h' !!! 0%nat) "billing_end" = Ok (VStr "29.02.24").
Proof.
  eexists. split; [vm_compute; reflexivity|].
  refine (proj2 (billing_end_is_last_day {[ 0%nat := compute_row ]} [0%nat]
            first_february "1" "My organization" _ [0%nat] 0%nat _ _ _) eq_refl).
  - reflexivity.
  - vm_compute. reflexivity.
  - left.
Defined.

(** ** Titles *)

(** The title a record ends with: the text before the first space of its
    own title, or of the name its parent has in the table. *)
Lemma title_after nr d aid an items a ppid T :
  (ppid <> "" -> T = before_space (default "" (nr !! ppid))) ->
  forall (h : gmap nat (dict value)) p h' out,
    process_loop nr d aid an h items p = Ok (h', out) ->
    a ∈ items ->
    getitem (h !!! a) "parent_service_id" = Ok (VStr ppid) ->
    (ppid = "" -> exists t, getitem (h !!! a) "title" = Ok (VStr t) /\ before_space t = T) ->
    getitem (h' !!! a) "title" = Ok (VStr T).
Proof.
  intros HT h p h' out H Hin Hp Ht.
  set (K := fun r : dict value =>
              getitem r "parent_service_id" = Ok (VStr ppid)
              /\ (ppid = "" -> exists t, getitem r "title" = Ok (VStr t) /\ before_space t = T)).
  assert (Hstep : forall r r', K r -> process_record nr d aid an r = Ok r' ->
                    K r' /\ getitem r' "title" = Ok (VStr T)).
  { intros r r' [Kp Kt] Hr. record_inv Hr. subst r'.
    rewrite Kp in Hppid. injection Hppid as <-.
    assert (HT' : before_space title = T).
    { unfold with_parent_title, ne_empty in Htitle.
      destruct (String.eqb ppid "") eqn:Ep; cbn [negb] in Htitle.
      - apply String.eqb_eq in Ep. destruct (Kt Ep) as (t & Ht' & <-). congruence.
      - apply String.eqb_neq in Ep. rewrite getitem_setitem_eq in Htitle.
        injection Htitle as <-. symmetry. auto. }
    rewrite enriched_title, HT'. split; [|reflexivity]. split.
    - rewrite enriched_parent_service_id, with_parent_title_other by discriminate.
      assumption.
    - intros _. exists T. split; [rewrite enriched_title; congruence|].
      rewrite <- HT'. apply before_space_idem. }
  apply (process_loop_inv nr d aid an K
           (fun r => K r /\ getitem r "title" = Ok (VStr T)) items a)
    with (h := h) (p := p) (out := out); auto.
  - intros r r' [Kr _] Hr. exact (Hstep _ _ Kr Hr).
  - right. split; [split|]; assumption.
Qed.

(** What the loop does to titles.  In a batch that is transformed, the
    title of a record without parent is the text before the first space of
    its original title; the title of a record with a parent is the text
    before the first space of the name the table holds for
    [parent_service_id], and empty when the table holds none.  This is the
    first word of the title only when the title does not start with a
    space and its first two words are separated by a space. *)
Theorem title_is_first_piece h items d aid an h' out a :
  process_data h items d aid an = Ok (h', out) ->
  a ∈ items ->
  exists nr ppid,
    build_named_resources h items ∅ = Ok nr
    /\ getitem (h !!! a) "parent_service_id" = Ok ppid
    /\ (ppid = "" ->
        exists t, getitem (h !!! a) "title" = Ok t
                  /\ getitem (h' !!! a) "title" = Ok (VStr (before_space t)))
    /\ (ppid <> "" ->
        forall t, nr !! ppid = Some t ->
                  getitem (h' !!! a) "title" = Ok (VStr (before_space t)))
    /\ (ppid <> "" ->
        nr !! ppid = None -> getitem (h' !!! a) "title" = Ok (VStr "")).
Proof.
  intros H Hin. apply process_data_inv in H as (nr & Hnr & H).
  destruct (process_loop_first _ _ _ _ _ _ _ _ _ _ H Hin) as [r1 Hr1].
  rewrite lookup_to_values in Hr1. record_inv Hr1.
  apply getitem_to_values_inv in Hppid as (p & -> & Hp).
  exists nr, p. split; [assumption|]. split; [assumption|].
  assert (Hp' : getitem ((to_values <$> h) !!! a) "parent_service_id" = Ok (VStr p)).
  { rewrite lookup_to_values. now apply getitem_to_values_Ok. }
  split; [|split].
  - intros ->. unfold with_parent_title in Htitle. simpl in Htitle.
    apply getitem_to_values_inv in Htitle as (t & [= <-] & Ht).
    exists title. split; [assumption|].
    apply (title_after nr d aid an items a "" (before_space title))
      with (h := to_values <$> h) (p := []) (out := out); auto.
    + congruence.
    + intros _. exists title. split; [|reflexivity].
      rewrite lookup_to_values. now apply getitem_to_values_Ok.
  - intros Hne t Hl.
    apply (title_after nr d aid an items a p (before_space t))
      with (h := to_values <$> h) (p := []) (out := out); auto.
    + intros _. now rewrite Hl.
    + intros ->. congruence.
  - intros Hne Hl.
    apply (title_after nr d aid an items a p "")
      with (h := to_values <$> h) (p := []) (out := out); auto.
    + intros _. now rewrite Hl.
    + intros ->. congruence.
Qed.

Lemma title_is_first_piece_witness :
  exists h',
    process_data family [0%nat; 1%nat; 2%nat] first_february "1" "My organization"
      = Ok (h', [0%nat; 1%nat; 2%nat])
    /\ exists nr ppid,
         build_named_resources family [0%nat; 1%nat; 2%nat] ∅ = Ok nr
         /\ getitem (family !!! 1%nat) "parent_service_id" = Ok ppid
         /\ (ppid = "" ->
             exists t, getitem (family !!! 1%nat) "title" = Ok t
                       /\ getitem (h' !!! 1%nat) "title" = Ok (VStr (before_space t)))
         /\ (ppid <> "" ->
             forall t, nr !! ppid = Some t ->
                       getitem (h' !!! 1%nat) "title" = Ok (VStr (before_space t)))
         /\ (ppid <> "" ->
             nr !! ppid = None -> getitem (h' !!! 1%nat) "title" = Ok (VStr "")).
Proof.
  eexists. split; [vm_compute; reflexivity|].
  apply (title_is_first_piece family [0%nat; 1%nat; 2%nat] first_february "1"
           "My organization" _ [0%nat; 1%nat; 2%nat] 1%nat).
  - vm_compute. reflexivity.
  - right. left.
Defined.

(** The three cases of the title on a small batch: a top-level record, its
    child, and a child whose parent is unknown. *)
Example titles_of_family :
  exists h',
    process_data family [0%nat; 1%nat; 2%nat] first_february "1" "My organization"
      = Ok (h', [0%nat; 1%nat; 2%nat])
    /\ getitem (h' !!! 0%nat) "title" = Ok (VStr "Compute")
    /\ getitem (h' !!! 1%nat) "title" = Ok (VStr "Compute")
    /\ getitem (h' !!! 2%nat) "title" = Ok (VStr "").
Proof.
  eexists. split; [vm_compute; reflexivity|]. repeat split; vm_compute; reflexivity.
Qed.

(** C3.  The source announces the first word of the title (the comment
    above the assignment: extracting the first word), and so does the
    claim; the code takes the text before the first space.  On a title
    whose two words are separated by a tab the first word is Compute, and
    the title stays whole. *)
Lemma title_with_tab :
  exists h',
    process_data {[ 0%nat := tabbed_row ]} [0%nat] first_february "1" "My organization"
      = Ok (h', [0%nat])
    /\ getitem (h' !!! 0%nat) "title" = Ok (VStr ("Compute" ++ String tab "Instance"))
    /\ nth 0 (tokens ("Compute" ++ String tab "Instance")) "" = "Compute"
    /\ getitem (h' !!! 0%nat) "title"
         <> Ok (VStr (nth 0 (tokens ("Compute" ++ String tab "Instance")) "")).
Proof.
  eexists. split; [vm_compute; reflexivity|].
  split; [vm_compute; reflexivity|]. split; [vm_compute; reflexivity|].
  vm_compute. discriminate.
Qed.

(** The same on a title that starts with a space: the first word is
    Compute, the title becomes empty. *)
Example title_with_leading_space :
  exists h',
    process_data {[ 0%nat := spaced_row ]} [0%nat] first_february "1" "My organization"
      = Ok (h', [0%nat])
    /\ getitem (h' !!! 0%nat) "title" = Ok (VStr "")
    /\ nth 0 (tokens " Compute Instance") "" = "Compute".
Proof.
  eexists. split; [vm_compute; reflexivity|]. split; vm_compute; reflexivity.
Qed.

(** ** Quantity, unit and unit price *)

Lemma float_of_value_str s x : float_of_value (VStr s) = Ok x -> float_of_string s = Some x.
Proof. simpl. destruct (float_of_string s); [congruence|discriminate]. Qed.

Lemma quantity_after nr d aid an items a q s x y :
  float_of_string s = Some x ->
  float_of_string (before_space q) = Some y ->
  forall (h : gmap nat (dict value)) p h' out,
    process_loop nr d aid an h items p = Ok (h', out) ->
    a ∈ items ->
    getitem (h !!! a) "quantity" = Ok (VStr q) ->
    getitem (h !!! a) "subotal" = Ok (VStr s) ->
    getitem (h' !!! a) "quantity" = Ok (VStr (before_space q))
    /\ getitem (h' !!! a) "list_unit_price" = Ok (VFloat (SFdiv prec emax x y)).
Proof.
  intros Hxs Hys h p h' out H Hin Hq0 Hs0.
  set (K := fun r : dict value =>
              (exists q', getitem r "quantity" = Ok (VStr q')
                          /\ before_space q' = before_space q)
              /\ getitem r "subotal" = Ok (VStr s)).
  set (J := fun r : dict value =>
              getitem r "quantity" = Ok (VStr (before_space q))
              /\ getitem r "list_unit_price" = Ok (VFloat (SFdiv prec emax x y))).
  assert (Hstep : forall r r', K r -> process_record nr d aid an r = Ok r' -> K r' /\ J r').
  { intros r r' [(q' & Kq & Kb) Ks] Hr. record_inv Hr. subst r'.
    rewrite Kq in Hq. injection Hq as <-.
    rewrite Ks in Hsub. injection Hsub as <-.
    apply float_of_value_str in Hx. rewrite Hxs in Hx. injection Hx as <-.
    rewrite Kb, Hys in Hy. injection Hy as <-.
    unfold K, J.
    rewrite enriched_quantity, enriched_list_unit_price, enriched_subotal,
      with_parent_title_other, Kb by discriminate.
    repeat split; try assumption.
    exists (before_space q). split; [reflexivity|apply before_space_idem]. }
  apply (process_loop_inv nr d aid an K (fun r => K r /\ J r) items a)
    with (h := h) (p := p) (out := out); auto.
  - intros r r' [Kr _] Hr. exact (Hstep _ _ Kr Hr).
  - right. split; [|assumption]. split; [eauto|assumption].
Qed.

(** C4, as the code has it.  In a batch that is transformed, a record's
    quantity is cut at every single space, empty pieces kept: the first
    piece becomes [quantity], and [list_unit_price] is [subotal] read as a
    float divided by that piece read as a float; for a record listed once,
    [usage_unit] is the second piece, and empty when there is none.  So
    5 hours with subotal 50 gives 5, hours and 10.0. *)
Theorem quantity_is_split_at_spaces h items d aid an h' out a :
  process_data h items d aid an = Ok (h', out) ->
  a ∈ items ->
  exists q s x y,
    getitem (h !!! a) "quantity" = Ok q
    /\ getitem (h !!! a) "subotal" = Ok s
    /\ float_of_string s = Some x
    /\ float_of_string (before_space q) = Some y
    /\ is_zero y = false
    /\ nth 0 (split q) "" = before_space q
    /\ getitem (h' !!! a) "quantity" = Ok (VStr (before_space q))
    /\ getitem (h' !!! a) "list_unit_price" = Ok (VFloat (SFdiv prec emax x y))
    /\ (forall l1 l2, items = (l1 ++ a :: l2)%list -> a ∉ l1 -> a ∉ l2 ->
        getitem (h' !!! a) "usage_unit" = Ok (VStr (nth 1 (split q) "")))
    /\ (q = "5 hours" -> s = "50" ->
        before_space q = "5" /\ nth 1 (split q) "" = "hours"
        /\ SFdiv prec emax x y = ten).
Proof.
  intros H Hin. apply process_data_inv in H as (nr & Hnr & H).
  destruct (process_loop_first _ _ _ _ _ _ _ _ _ _ H Hin) as [r1 Hr1].
  rewrite lookup_to_values in Hr1. record_inv Hr1.
  apply getitem_to_values_inv in Hq as (q' & [= <-] & Hq).
  apply getitem_to_values_inv in Hsub as (s & -> & Hs).
  apply float_of_value_str in Hx.
  exists q, s, x, y. repeat (split; [assumption|]).
  split. { destruct (split_cons q) as (w & ws & -> & ->). reflexivity. }
  assert (Hqp := quantity_after nr d aid an items a q s x y Hx Hy
                   (to_values <$> h) [] h' out H Hin).
  rewrite lookup_to_values in Hqp.
  destruct Hqp as [Hq' Hp']; [now apply getitem_to_values_Ok..|].
  split; [assumption|]. split; [assumption|]. split.
  - intros l1 l2 -> H1 H2.
    pose proof (process_loop_once _ _ _ _ _ _ _ _ _ _ _ H H1 H2) as Hr.
    rewrite lookup_to_values in Hr. apply process_record_inv in Hr.
    destruct Hr as (? & ? & ? & ? & q2 & ? & ? & ? & ? & ? &
                    _ & _ & _ & _ & Hq2 & _ & _ & _ & _ & _ & _ & ->).
    apply getitem_to_values_inv in Hq2 as (q' & [= <-] & Hq2).
    rewrite Hq in Hq2. injection Hq2 as <-.
    apply enriched_usage_unit.
  - intros -> ->. split; [reflexivity|]. split; [reflexivity|].
    vm_compute in Hx. vm_compute in Hy. injection Hx as <-. injection Hy as <-.
    vm_compute. reflexivity.
Qed.

Lemma quantity_is_split_at_spaces_witness :
  exists h',
    process_data {[ 0%nat := compute_row ]} [0%nat] first_february "1" "My organization"
      = Ok (h', [0%nat])
    /\ exists q s x y,
         getitem (({[ 0%nat := compute_row ]} : gmap nat (dict string)) !!! 0%nat) "quantity"
           = Ok q
         /\ getitem (({[ 0%nat := compute_row ]} : gmap nat (dict string)) !!! 0%nat) "subotal"
              = Ok s
         /\ float_of_string s = Some x
         /\ float_of_string (before_space q) = Some y
         /\ is_zero y = false
         /\ nth 0 (split q) "" = before_space q
         /\ getitem (h' !!! 0%nat) "quantity" = Ok (VStr (before_space q))
         /\ getitem (h' !!! 0%nat) "list_unit_price" = Ok (VFloat (SFdiv prec emax x y))
         /\ (forall l1 l2, [0%nat] = (l1 ++ 0%nat :: l2)%list -> 0%nat ∉ l1 -> 0%nat ∉ l2 ->
             getitem (h' !!! 0%nat) "usage_unit" = Ok (VStr (nth 1 (split q) "")))
         /\ (q = "5 hours" -> s = "50" ->
             before_space q = "5" /\ nth 1 (split q) "" = "hours"
             /\ SFdiv prec emax x y = ten).
Proof.
  eexists. split; [vm_compute; reflexivity|].
  apply (quantity_is_split_at_spaces {[ 0%nat := compute_row ]} [0%nat] first_february
           "1" "My organization" _ [0%nat] 0%nat).
  - vm_compute. reflexivity.
  - left.
Defined.

Example ten_is_10 : ten = binary_normalize prec emax 10 0 false.
Proof. vm_compute. reflexivity. Qed.

(** Five hours for fifty: the quantity, the unit and the price of one. *)
Example five_hours_for_fifty :
  exists h',
    process_data {[ 0%nat := compute_row ]} [0%nat] first_february "1" "My organization"
      = Ok (h', [0%nat])
    /\ getitem (h' !!! 0%nat) "quantity" = Ok (VStr "5")
    /\ getitem (h' !!! 0%nat) "usage_unit" = Ok (VStr "hours")
    /\ getitem (h' !!! 0%nat) "list_unit_price" = Ok (VFloat ten).
Proof.
  eexists. split; [vm_compute; reflexivity|]. repeat split; vm_compute; reflexivity.
Qed.

(** C4 as worded fails when two spaces separate the number from the unit:
    the second word of the quantity is hours, [usage_unit] is empty. *)
Lemma usage_unit_after_two_spaces :
  exists h',
    process_data {[ 0%nat := wide_row ]} [0%nat] first_february "1" "My organization"
      = Ok (h', [0%nat])
    /\ getitem (h' !!! 0%nat) "usage_unit" = Ok (VStr "")
    /\ nth 1 (tokens "5  hours") "" = "hours"
    /\ getitem (h' !!! 0%nat) "usage_unit" <> Ok (VStr (nth 1 (tokens "5  hours") "")).
Proof.
  eexists. split; [vm_compute; reflexivity|].
  split; [vm_compute; reflexivity|]. split; [vm_compute; reflexivity|].
  vm_compute. discriminate.
Qed.

(** A record listed twice is transformed twice: the second pass finds the
    quantity already cut and leaves [usage_unit] empty. *)
Example usage_unit_of_a_record_listed_twice :
  exists h',
    process_data {[ 0%nat := compute_row ]} [0%nat; 0%nat] first_february "1"
      "My organization" = Ok (h', [0%nat; 0%nat])
    /\ getitem (h' !!! 0%nat) "quantity" = Ok (VStr "5")
    /\ getitem (h' !!! 0%nat) "usage_unit" = Ok (VStr "").
Proof.
  eexists. split; [vm_compute; reflexivity|]. split; vm_compute; reflexivity.
Qed.

(** ** Count and order *)

(** C7.  A batch that is transformed comes back as the same records in the
    same order: the list returned is the list given, so it is as long. *)
Theorem output_keeps_count_and_order h items d aid an h' out :
  process_data h items d aid an = Ok (h', out) ->
  out = items /\ length out = length items.
Proof.
  intros H. apply process_data_inv in H as (nr & _ & H).
  apply process_loop_prepared in H. simpl in H. now subst out.
Qed.

Lemma output_keeps_count_and_order_witness :
  exists h',
    process_data family [0%nat; 1%nat; 2%nat] first_february "1" "My organization"
      = Ok (h', [0%nat; 1%nat; 2%nat])
    /\ [0%nat; 1%nat; 2%nat] = [0%nat; 1%nat; 2%nat]
    /\ length [0%nat; 1%nat; 2%nat] = length [0%nat; 1%nat; 2%nat].
Proof.
  assert (H : exists h', process_data family [0%nat; 1%nat; 2%nat] first_february "1"
                           "My organization" = Ok (h', [0%nat; 1%nat; 2%nat]))
    by (eexists; vm_compute; reflexivity).
  destruct H as [h' H]. exists h'. split; [exact H|].
  exact (output_keeps_count_and_order family [0%nat; 1%nat; 2%nat] first_february "1"
           "My organization" h' [0%nat; 1%nat; 2%nat] H).
Defined.

(** ** The name table of a batch *)

Lemma unnamed_not_last_named h items sid t :
  unnamed h items sid -> ~ last_named h items sid t.
Proof.
  intros Hun (l1 & a & l2 & -> & Htop & _).
  apply (Hun a t); [|assumption]. apply elem_of_app. right. left.
Qed.

Lemma named_resources_spec_empty h items nr :
  build_named_resources h items ∅ = Ok nr ->
  forall sid title, nr !! sid = Some title -> last_named h items sid title.
Proof.
  intros H sid title. rewrite (build_named_resources_spec _ _ _ _ H).
  rewrite lookup_empty. intros [?|[? _]]; [assumption|discriminate].
Qed.

(** C9.  The table built for a batch maps a [service_id] to a title exactly
    when a record without parent and with a non-empty title carries them,
    and no later such record carries the same [service_id]: the pairs of
    the top-level titled records, the last one winning. *)
Theorem named_resources_last_wins h items nr :
  build_named_resources h items ∅ = Ok nr ->
  forall sid title, nr !! sid = Some title <-> last_named h items sid title.
Proof.
  intros H sid title. rewrite (build_named_resources_spec _ _ _ _ H).
  rewrite lookup_empty. split; [intros [?|[? _]]; [assumption|discriminate]|auto].
Qed.

Lemma named_resources_last_wins_witness :
  build_named_resources twins [0%nat; 1%nat; 2%nat] ∅ = Ok {[ "srv-1" := "Storage Box" ]}
  /\ forall sid title,
       ({[ "srv-1" := "Storage Box" ]} : gmap string string) !! sid = Some title
       <-> last_named twins [0%nat; 1%nat; 2%nat] sid title.
Proof.
  assert (H : build_named_resources twins [0%nat; 1%nat; 2%nat] ∅
              = Ok {[ "srv-1" := "Storage Box" ]}) by (vm_compute; reflexivity).
  split; [exact H|].
  exact (named_resources_last_wins twins [0%nat; 1%nat; 2%nat] _ H).
Defined.

(** C10, as the code has it.  A child whose [parent_service_id] is the
    [service_id] of a top-level record with an empty title ends with an
    empty title, provided no top-level record with a title carries that
    [service_id] too. *)
Theorem child_of_untitled_parent h items d aid an h' out a p ppid :
  process_data h items d aid an = Ok (h', out) ->
  a ∈ items ->
  getitem (h !!! a) "parent_service_id" = Ok ppid ->
  ppid <> "" ->
  p ∈ items ->
  getitem (h !!! p) "service_id" = Ok ppid ->
  getitem (h !!! p) "parent_service_id" = Ok "" ->
  getitem (h !!! p) "title" = Ok "" ->
  unnamed h items ppid ->
  getitem (h' !!! a) "title" = Ok (VStr "").
Proof.
  intros H Hin Hp Hne _ _ _ _ Hun.
  apply process_data_inv in H as (nr & Hnr & H).
  assert (Hnone : nr !! ppid = None).
  { destruct (nr !! ppid) as [t|] eqn:E; [|reflexivity].
    apply (named_resources_spec_empty h items nr Hnr) in E.
    now apply unnamed_not_last_named in E. }
  apply (title_after nr d aid an items a ppid "")
    with (h := to_values <$> h) (p := []) (out := out); auto.
  - intros _. now rewrite Hnone.
  - rewrite lookup_to_values. now apply getitem_to_values_Ok.
  - intros ->. congruence.
Qed.

Lemma child_of_untitled_parent_witness :
  exists h',
    process_data orphans [0%nat; 1%nat] first_february "1" "My organization"
      = Ok (h', [0%nat; 1%nat])
    /\ getitem (h' !!! 1%nat) "title" = Ok (VStr "").
Proof.
  eexists. split; [vm_compute; reflexivity|].
  refine (child_of_untitled_parent orphans [0%nat; 1%nat] first_february "1"
            "My organization" _ [0%nat; 1%nat] 1%nat 0%nat "srv-1" _ _ _ _ _ _ _ _ _).
  - vm_compute. reflexivity.
  - right. left.
  - reflexivity.
  - discriminate.
  - left.
  - reflexivity.
  - reflexivity.
  - reflexivity.
  - intros b t Hb (Hp & Ht & Hne & Hs).
    apply elem_of_cons in Hb as [->|Hb].
    + vm_compute in Ht. congruence.
    + apply elem_of_cons in Hb as [->|Hb]; [|inversion Hb].
      vm_compute in Hp. discriminate.
Defined.

(** C10 as worded fails when a second top-level record carries the same
    [service_id] and has a title: the child takes that title. *)
Lemma child_of_untitled_parent_with_twin :
  exists h',
    process_data stepfamily [0%nat; 1%nat; 2%nat] first_february "1" "My organization"
      = Ok (h', [0%nat; 1%nat; 2%nat])
    /\ getitem (stepfamily !!! 2%nat) "parent_service_id" = Ok "srv-1"
    /\ getitem (stepfamily !!! 0%nat) "service_id" = Ok "srv-1"
    /\ getitem (stepfamily !!! 0%nat) "parent_service_id" = Ok ""
    /\ getitem (stepfamily !!! 0%nat) "title" = Ok ""
    /\ getitem (h' !!! 2%nat) "title" = Ok (VStr "Compute")
    /\ getitem (h' !!! 2%nat) "title" <> Ok (VStr "").
Proof.
  eexists. split; [vm_compute; reflexivity|].
  repeat (split; [vm_compute; reflexivity|]).
  vm_compute. discriminate.
Qed.

(** ** Batches read from a file *)

Lemma lookup_store_of (rows : list (dict string)) (a : nat) (row : dict string) :
  rows !! a = Some row -> store_of rows !!! a = row.
Proof.
  intros H. apply lookup_total_correct. unfold store_of.
  now rewrite lookup_map_seq_0.
Qed.

Lemma addresses_app (rows1 rows2 : list (dict string)) (row : dict string) :
  addresses (rows1 ++ row :: rows2) =
  (seq 0 (length rows1) ++ length rows1 :: seq (S (length rows1)) (length rows2))%list.
Proof.
  unfold addresses. rewrite length_app. simpl length.
  rewrite seq_app. simpl. reflexivity.
Qed.

Lemma elem_of_addresses (rows : list (dict string)) (row : dict string) :
  row ∈ rows -> exists a, a ∈ addresses rows /\ store_of rows !!! a = row.
Proof.
  intros Hin. apply list_elem_of_lookup in Hin as [a Ha]. exists a. split.
  - apply elem_of_seq. apply lookup_lt_Some in Ha. lia.
  - now apply lookup_store_of.
Qed.

Lemma zero_quantity_raises h items d aid an a q y :
  a ∈ items ->
  getitem (h !!! a) "quantity" = Ok q ->
  float_of_string (before_space q) = Some y ->
  is_zero y = true ->
  exists e, process_data h items d aid an = Raise e.
Proof.
  intros Hin Hq0 Hy0 Hz0.
  destruct (process_data h items d aid an) as [[h' out]|e] eqn:E; [exfalso|eauto].
  apply process_data_inv in E as (nr & _ & E).
  destruct (process_loop_first _ _ _ _ _ _ _ _ _ _ E Hin) as [r1 Hr1].
  rewrite lookup_to_values in Hr1. record_inv Hr1.
  rewrite (getitem_to_values_Ok _ _ _ Hq0) in Hq. injection Hq as <-.
  congruence.
Qed.

Lemma bad_number_raises h items d aid an a :
  a ∈ items ->
  has_bad_number (h !!! a) ->
  exists e, process_data h items d aid an = Raise e.
Proof.
  intros Hin Hbad.
  destruct (process_data h items d aid an) as [[h' out]|e] eqn:E; [exfalso|eauto].
  apply process_data_inv in E as (nr & _ & E).
  destruct (process_loop_first _ _ _ _ _ _ _ _ _ _ E Hin) as [r1 Hr1].
  rewrite lookup_to_values in Hr1. record_inv Hr1.
  destruct Hbad as [(s & Hs & Hnone)|(q0 & Hq0 & Hnone)].
  - rewrite (getitem_to_values_Ok _ _ _ Hs) in Hsub. injection Hsub as <-.
    apply float_of_value_str in Hx. congruence.
  - rewrite (getitem_to_values_Ok _ _ _ Hq0) in Hq. injection Hq as <-.
    congruence.
Qed.

(** An exception in [process_data] is caught by [main]: it prints the
    error and never comes to [write_to_csv]. *)
Lemma main_of_raise files args rows e :
  files !! input_file args = Some rows ->
  process_data (store_of rows) (addresses rows) (invoice_date args)
    (billing_account_id args) (billing_account_name args) = Raise e ->
  main files args = [Printed (Error e)].
Proof. intros Hf Hp. unfold main, validate_input_file. now rewrite Hf, Hp. Qed.

(** The loop body on a row as read, up to the numbers. *)
Lemma process_record_row nr d aid an row q s :
  has_text_fields row ->
  valid_datetime d = true ->
  getitem row "quantity" = Ok q ->
  getitem row "subotal" = Ok s ->
  exists r title,
    process_record nr d aid an (to_values row) =
      (x <- float_of_value (VStr s) ;;
       y <- float_of_value (VStr (before_space q)) ;;
       price <- float_div x y ;;
       Ok (enriched r title d (end_of_month d) aid an
             (get row "service_type" "") (get row "description" "") q price)).
Proof.
  intros (ppid & title & st & ds & Hp & Ht & Hst & Hds) Hv Hq Hs.
  destruct (billing_end_date d Hv) as [Hn Hl].
  assert (Htitle : exists t, getitem (with_parent_title nr (to_values row) (VStr ppid)) "title"
                             = Ok (VStr t)).
  { unfold with_parent_title. destruct (ne_empty (VStr ppid)).
    - rewrite getitem_setitem_eq. eauto.
    - rewrite (getitem_to_values_Ok _ _ _ Ht). eauto. }
  destruct Htitle as [t Htitle].
  exists (with_parent_title nr (to_values row) (VStr ppid)), t.
  rewrite (process_record_run nr d aid an (to_values row) (VStr ppid) t st ds q _ _
             (getitem_to_values_Ok _ _ _ Hp) Htitle
             (getitem_to_values_Ok _ _ _ Hst) (getitem_to_values_Ok _ _ _ Hds)
             (getitem_to_values_Ok _ _ _ Hq) Hn Hl).
  rewrite (getitem_to_values_Ok _ _ _ Hs). cbn [bind].
  unfold get. rewrite Hst, Hds. reflexivity.
Qed.

(** Distinct records that are all transformable are transformed, on any
    date that exists. *)
Lemma process_data_succeeds h items d aid an :
  NoDup items ->
  valid_datetime d = true ->
  (forall a, a ∈ items -> transformable (h !!! a)) ->
  exists h', process_data h items d aid an = Ok (h', items).
Proof.
  intros Hnd Hv Hall. unfold process_data.
  destruct (build_named_resources_total h items) with (acc := (∅ : gmap string string))
    as [nr Hnr].
  { intros a k Ha Hk.
    destruct (Hall a Ha) as ((p & t & _ & _ & Hp & Ht & _) & [sid Hsid] & _).
    repeat (apply elem_of_cons in Hk as [->|Hk]; [eauto|]). inversion Hk. }
  rewrite Hnr. cbn [bind].
  apply (process_loop_distinct nr d aid an items (to_values <$> h) [] Hnd).
  intros a Ha. rewrite lookup_to_values.
  destruct (Hall a Ha) as (Htext & _ & q & s & x & y & Hq & Hs & Hx & Hy & Hz).
  destruct (process_record_row nr d aid an _ q s Htext Hv Hq Hs) as (r & t & ->).
  simpl. rewrite Hx, Hy. cbn [bind]. unfold float_div. rewrite Hz. cbn [bind]. eauto.
Qed.

(** In a batch read from a file the first row that fails decides the
    exception. *)
Lemma batch_first_failure rows1 row rows2 nr d aid an e :
  build_named_resources (store_of (rows1 ++ row :: rows2))
    (addresses (rows1 ++ row :: rows2)) ∅ = Ok nr ->
  (forall r, r ∈ rows1 -> exists r', process_record nr d aid an (to_values r) = Ok r') ->
  process_record nr d aid an (to_values row) = Raise e ->
  process_data (store_of (rows1 ++ row :: rows2)) (addresses (rows1 ++ row :: rows2))
    d aid an = Raise e.
Proof.
  intros Hnr Hall Hfail. unfold process_data. rewrite Hnr. cbn [bind].
  rewrite addresses_app. apply process_loop_first_failure.
  - apply NoDup_seq.
  - rewrite elem_of_seq. lia.
  - intros b Hb. apply elem_of_seq in Hb.
    destruct (lookup_lt_is_Some_2 rows1 b) as [r Hr]; [lia|].
    rewrite lookup_to_values.
    rewrite (lookup_store_of _ b r) by (now apply lookup_app_l_Some).
    apply Hall. apply list_elem_of_lookup. eauto.
  - rewrite lookup_to_values.
    rewrite (lookup_store_of _ (length rows1) row); [assumption|].
    now rewrite list_lookup_middle.
Qed.

(** C5, as the code has it.  A batch read from a file that holds a row
    whose first quantity piece reads as zero is not transformed:
    [process_data] raises, [main] prints the error and writes no file.
    The exception is the division by zero when that row is the first to
    fail and comes to the division: the table is built, the rows before it
    pass, its text fields are there and its [subotal] is a number. *)
Theorem zero_quantity_aborts files a rows1 row rows2 q y :
  files !! input_file a = Some (rows1 ++ row :: rows2)%list ->
  getitem row "quantity" = Ok q ->
  float_of_string (before_space q) = Some y ->
  is_zero y = true ->
  exists e,
    process_data (store_of (rows1 ++ row :: rows2)) (addresses (rows1 ++ row :: rows2))
      (invoice_date a) (billing_account_id a) (billing_account_name a) = Raise e
    /\ main files a = [Printed (Error e)]
    /\ (forall nr s x,
          build_named_resources (store_of (rows1 ++ row :: rows2))
            (addresses (rows1 ++ row :: rows2)) ∅ = Ok nr ->
          (forall r, r ∈ rows1 ->
             exists r', process_record nr (invoice_date a) (billing_account_id a)
                          (billing_account_name a) (to_values r) = Ok r') ->
          valid_datetime (invoice_date a) = true ->
          has_text_fields row ->
          getitem row "subotal" = Ok s ->
          float_of_string s = Some x ->
          e = ZeroDivisionError).
Proof.
  intros Hf Hq Hy Hz.
  destruct (elem_of_addresses (rows1 ++ row :: rows2) row) as (i & Hi & Hrow).
  { apply elem_of_app. right. left. }
  destruct (zero_quantity_raises (store_of (rows1 ++ row :: rows2))
              (addresses (rows1 ++ row :: rows2)) (invoice_date a)
              (billing_account_id a) (billing_account_name a) i q y Hi) as [e He];
    try assumption.
  { now rewrite Hrow. }
  exists e. split; [exact He|]. split; [exact (main_of_raise _ _ _ _ Hf He)|].
  intros nr s x Hnr Hall Hv Htext Hs Hx.
  destruct (process_record_row nr (invoice_date a) (billing_account_id a)
              (billing_account_name a) row q s Htext Hv Hq Hs) as (r & t & Hrun).
  simpl in Hrun. rewrite Hx, Hy in Hrun. cbn [bind] in Hrun.
  unfold float_div in Hrun. rewrite Hz in Hrun. cbn [bind] in Hrun.
  rewrite (batch_first_failure _ _ _ _ _ _ _ _ Hnr Hall Hrun) in He.
  congruence.
Qed.

Lemma zero_quantity_aborts_witness :
  exists e,
    process_data (store_of ([compute_row] ++ zero_row :: [child_row]))
      (addresses ([compute_row] ++ zero_row :: [child_row]))
      (invoice_date default_args) (billing_account_id default_args)
      (billing_account_name default_args) = Raise e
    /\ main {[ "input.csv" := [compute_row; zero_row; child_row] ]} default_args
       = [Printed (Error e)]
    /\ (forall nr s x,
          build_named_resources (store_of ([compute_row] ++ zero_row :: [child_row]))
            (addresses ([compute_row] ++ zero_row :: [child_row])) ∅ = Ok nr ->
          (forall r, r ∈ [compute_row] ->
             exists r', process_record nr (invoice_date default_args)
                          (billing_account_id default_args)
                          (billing_account_name default_args) (to_values r) = Ok r') ->
          valid_datetime (invoice_date default_args) = true ->
          has_text_fields zero_row ->
          getitem zero_row "subotal" = Ok s ->
          float_of_string s = Some x ->
          e = ZeroDivisionError).
Proof.
  apply (zero_quantity_aborts {[ "input.csv" := [compute_row; zero_row; child_row] ]}
           default_args [compute_row] zero_row [child_row] "0 hours" (S754_zero false)).
  - reflexivity.
  - reflexivity.
  - vm_compute. reflexivity.
  - reflexivity.
Defined.

(** Zero hours: the run ends with the error, nothing is written. *)
Example zero_hours_aborts :
  main {[ "input.csv" := [compute_row; zero_row; child_row] ]} default_args
  = [Printed (Error ZeroDivisionError)].
Proof. vm_compute. reflexivity. Qed.

(** C5 as worded fails on a row whose quantity is zero and whose [subotal]
    is not a number: [subotal] is read first, and the batch fails with the
    error of the conversion, not of the division. *)
Lemma zero_quantity_bad_subotal :
  getitem zero_row_bad_subotal "quantity" = Ok "0 hours"
  /\ float_of_string (before_space "0 hours") = Some (S754_zero false)
  /\ main {[ "input.csv" := [zero_row_bad_subotal] ]} default_args
     = [Printed (Error (ValueError (CouldNotConvert "abc")))]
  /\ main {[ "input.csv" := [zero_row_bad_subotal] ]} default_args
     <> [Printed (Error ZeroDivisionError)].
Proof.
  split; [reflexivity|]. split; [vm_compute; reflexivity|].
  split; [vm_compute; reflexivity|]. vm_compute. discriminate.
Qed.

(** C6, as the code has it.  A batch read from a file that holds a row
    whose [subotal] or first quantity piece is not a number is not
    transformed: [process_data] raises, [main] prints the error and writes
    no file, so no row reaches the output.  The exception is the failed
    conversion of that row's text when the row is the first to fail and
    comes to the numbers: the table is built, the rows before it pass, and
    its fields are there. *)
Theorem bad_number_aborts files a rows1 row rows2 :
  files !! input_file a = Some (rows1 ++ row :: rows2)%list ->
  has_bad_number row ->
  exists e,
    process_data (store_of (rows1 ++ row :: rows2)) (addresses (rows1 ++ row :: rows2))
      (invoice_date a) (billing_account_id a) (billing_account_name a) = Raise e
    /\ main files a = [Printed (Error e)]
    /\ (forall nr q s,
          build_named_resources (store_of (rows1 ++ row :: rows2))
            (addresses (rows1 ++ row :: rows2)) ∅ = Ok nr ->
          (forall r, r ∈ rows1 ->
             exists r', process_record nr (invoice_date a) (billing_account_id a)
                          (billing_account_name a) (to_values r) = Ok r') ->
          valid_datetime (invoice_date a) = true ->
          has_text_fields row ->
          getitem row "quantity" = Ok q ->
          getitem row "subotal" = Ok s ->
          e = ValueError (CouldNotConvert
                (match float_of_string s with
                 | None => s
                 | Some _ => before_space q
                 end))).
Proof.
  intros Hf Hbad.
  destruct (elem_of_addresses (rows1 ++ row :: rows2) row) as (i & Hi & Hrow).
  { apply elem_of_app. right. left. }
  destruct (bad_number_raises (store_of (rows1 ++ row :: rows2))
              (addresses (rows1 ++ row :: rows2)) (invoice_date a)
              (billing_account_id a) (billing_account_name a) i Hi) as [e He].
  { now rewrite Hrow. }
  exists e. split; [exact He|]. split; [exact (main_of_raise _ _ _ _ Hf He)|].
  intros nr q s Hnr Hall Hv Htext Hq Hs.
  destruct (process_record_row nr (invoice_date a) (billing_account_id a)
              (billing_account_name a) row q s Htext Hv Hq Hs) as (r & t & Hrun).
  assert (Hfail : process_record nr (invoice_date a) (billing_account_id a)
                    (billing_account_name a) (to_values row)
                  = Raise (ValueError (CouldNotConvert
                      (match float_of_string s with
                       | None => s
                       | Some _ => before_space q
                       end)))).
  { rewrite Hrun. simpl.
    destruct (float_of_string s) as [x|] eqn:Ex; cbn [bind]; [|reflexivity].
    destruct Hbad as [(s' & Hs' & Hnone)|(q' & Hq' & Hnone)].
    - congruence.
    - assert (q' = q) by congruence. subst q'. now rewrite Hnone. }
  rewrite (batch_first_failure _ _ _ _ _ _ _ _ Hnr Hall Hfail) in He.
  congruence.
Qed.

Lemma bad_number_aborts_witness :
  exists e,
    process_data (store_of ([compute_row] ++ bad_row :: [child_row]))
      (addresses ([compute_row] ++ bad_row :: [child_row]))
      (invoice_date default_args) (billing_account_id default_args)
      (billing_account_name default_args) = Raise e
    /\ main {[ "input.csv" := [compute_row; bad_row; child_row] ]} default_args
       = [Printed (Error e)]
    /\ (forall nr q s,
          build_named_resources (store_of ([compute_row] ++ bad_row :: [child_row]))
            (addresses ([compute_row] ++ bad_row :: [child_row])) ∅ = Ok nr ->
          (forall r, r ∈ [compute_row] ->
             exists r', process_record nr (invoice_date default_args)
                          (billing_account_id default_args)
                          (billing_account_name default_args) (to_values r) = Ok r') ->
          valid_datetime (invoice_date default_args) = true ->
          has_text_fields bad_row ->
          getitem bad_row "quantity" = Ok q ->
          getitem bad_row "subotal" = Ok s ->
          e = ValueError (CouldNotConvert
                (match float_of_string s with
                 | None => s
                 | Some _ => before_space q
                 end))).
Proof.
  apply (bad_number_aborts {[ "input.csv" := [compute_row; bad_row; child_row] ]}
           default_args [compute_row] bad_row [child_row]).
  - reflexivity.
  - right. exists "many hours". split; [reflexivity|vm_compute; reflexivity].
Defined.

Example many_hours_aborts :
  main {[ "input.csv" := [compute_row; bad_row; child_row] ]} default_args
  = [Printed (Error (ValueError (CouldNotConvert "many")))].
Proof. vm_compute. reflexivity. Qed.

(** C6 as worded fails when a row with a zero quantity comes before the
    row whose quantity is not a number: the batch fails with the division
    by zero of the earlier row, not with a conversion error. *)
Lemma bad_number_after_zero_quantity :
  has_bad_number bad_row
  /\ main {[ "input.csv" := [zero_row; bad_row] ]} default_args
     = [Printed (Error ZeroDivisionError)]
  /\ forall why,
       main {[ "input.csv" := [zero_row; bad_row] ]} default_args
       <> [Printed (Error (ValueError why))].
Proof.
  split.
  { right. exists "many hours". split; [reflexivity|vm_compute; reflexivity]. }
  assert (H : main {[ "input.csv" := [zero_row; bad_row] ]} default_args
              = [Printed (Error ZeroDivisionError)]) by (vm_compute; reflexivity).
  split; [exact H|]. intros why. rewrite H. discriminate.
Qed.

(** C8.  When the input file has no rows, [main] fails on the first row it
    asks for, the row the field names are taken from: it prints the error
    and writes no file. *)
Theorem empty_input_aborts files a :
  files !! input_file a = Some [] ->
  main files a = [Printed (Error IndexError)].
Proof. intros Hf. unfold main, validate_input_file. rewrite Hf. reflexivity. Qed.

Lemma empty_input_aborts_witness :
  ({[ "input.csv" := [] ]} : gmap string (list (dict string))) !! input_file default_args
    = Some []
  /\ main {[ "input.csv" := [] ]} default_args = [Printed (Error IndexError)].
Proof.
  split; [reflexivity|].
  apply (empty_input_aborts {[ "input.csv" := [] ]} default_args). reflexivity.
Defined.

(** ** The other fields of a record *)

Lemma enriched_billing_account r title d last aid an st ds q price :
  getitem (enriched r title d last aid an st ds q price) "billing_account_id"
    = Ok (VStr aid)
  /\ getitem (enriched r title d last aid an st ds q price) "billing_account_name"
       = Ok (VStr an).
Proof. unfold enriched. cbv zeta. split; now dict_simpl. Qed.

Lemma enriched_description r title d last aid an st ds q price :
  getitem (enriched r title d last aid an st ds q price) "description"
    = Ok (VStr (join [before_space title; st; ds])).
Proof. unfold enriched. cbv zeta. now dict_simpl. Qed.

Lemma not_written (k : string) :
  k ∉ written_keys ->
  k <> "title" /\ k <> "billing_start" /\ k <> "billing_end"
  /\ k <> "billing_account_id" /\ k <> "billing_account_name"
  /\ k <> "description" /\ k <> "usage_unit" /\ k <> "quantity"
  /\ k <> "list_unit_price".
Proof.
  intros Hk. repeat split; intros ->; apply Hk; unfold written_keys;
    repeat constructor.
Qed.

Ltac not_in_list :=
  let Hin := fresh "Hin" in
  intros Hin;
  repeat (apply elem_of_cons in Hin as [Hin|Hin]; [discriminate Hin|]);
  inversion Hin.

Lemma enriched_other r title d last aid an st ds q price k :
  k ∉ written_keys ->
  getitem (enriched r title d last aid an st ds q price) k = getitem r k.
Proof.
  intros Hk. apply not_written in Hk as (? & ? & ? & ? & ? & ? & ? & ? & ?).
  unfold enriched. cbv zeta.
  repeat (rewrite getitem_setitem_ne by congruence). reflexivity.
Qed.

(** The account fields of every record of a batch that is transformed are
    the two account arguments, as given. *)
Theorem account_fields_are_copied h items d aid an h' out a :
  process_data h items d aid an = Ok (h', out) ->
  a ∈ items ->
  getitem (h' !!! a) "billing_account_id" = Ok (VStr aid)
  /\ getitem (h' !!! a) "billing_account_name" = Ok (VStr an).
Proof.
  intros H Hin. split; apply (process_data_field _ _ _ _ _ _ _ _ _ _ H Hin);
    intros nr r r' Hr; record_inv Hr; subst r'; apply enriched_billing_account.
Qed.

Lemma account_fields_are_copied_witness :
  exists h',
    process_data family [0%nat; 1%nat; 2%nat] first_february "42" "Acme"
      = Ok (h', [0%nat; 1%nat; 2%nat])
    /\ getitem (h' !!! 1%nat) "billing_account_id" = Ok (VStr "42")
    /\ getitem (h' !!! 1%nat) "billing_account_name" = Ok (VStr "Acme").
Proof.
  eexists. split; [vm_compute; reflexivity|].
  refine (account_fields_are_copied family [0%nat; 1%nat; 2%nat] first_february
            "42" "Acme" _ [0%nat; 1%nat; 2%nat] 1%nat _ _).
  - vm_compute. reflexivity.
  - right. left.
Defined.

(** A field the loop body does not assign keeps the value it was read
    with, and stays absent when it was absent, however often the record is
    listed. *)
Theorem other_fields_pass_through h items d aid an h' out a k :
  process_data h items d aid an = Ok (h', out) ->
  a ∈ items ->
  k ∉ written_keys ->
  getitem (h' !!! a) k = getitem (to_values (h !!! a)) k.
Proof.
  intros H Hin Hk. apply process_data_inv in H as (nr & _ & H).
  set (J := fun r : dict value => getitem r k = getitem (to_values (h !!! a)) k).
  assert (Hstep : forall r r', J r -> process_record nr d aid an r = Ok r' -> J r').
  { intros r r' HJ Hr. record_inv Hr. subst r'. unfold J.
    rewrite enriched_other by assumption.
    rewrite with_parent_title_other; [exact HJ|].
    now apply not_written in Hk as (? & _). }
  apply (process_loop_inv nr d aid an J J items a Hstep Hstep (to_values <$> h) [] h' out H).
  left. unfold J. now rewrite lookup_to_values.
Qed.

Lemma other_fields_pass_through_witness :
  exists h',
    process_data family [0%nat; 1%nat; 2%nat] first_february "1" "My organization"
      = Ok (h', [0%nat; 1%nat; 2%nat])
    /\ getitem (h' !!! 1%nat) "subotal" = getitem (to_values (family !!! 1%nat)) "subotal".
Proof.
  eexists. split; [vm_compute; reflexivity|].
  refine (other_fields_pass_through family [0%nat; 1%nat; 2%nat] first_february
            "1" "My organization" _ [0%nat; 1%nat; 2%nat] 1%nat "subotal" _ _ _).
  - vm_compute. reflexivity.
  - right. left.
  - unfold written_keys. not_in_list.
Defined.

(** The description of a record listed once is its new title, its service
    type and its old description, joined by single spaces; an empty part
    still brings its space. *)
Theorem description_is_joined h items d aid an h' out l1 a l2 :
  process_data h items d aid an = Ok (h', out) ->
  items = (l1 ++ a :: l2)%list ->
  a ∉ l1 ->
  a ∉ l2 ->
  exists title st ds,
    getitem (h !!! a) "service_type" = Ok st
    /\ getitem (h !!! a) "description" = Ok ds
    /\ getitem (h' !!! a) "title" = Ok (VStr title)
    /\ getitem (h' !!! a) "description" = Ok (VStr (title ++ " " ++ st ++ " " ++ ds)).
Proof.
  intros H -> H1 H2. apply process_data_inv in H as (nr & _ & H).
  pose proof (process_loop_once _ _ _ _ _ _ _ _ _ _ _ H H1 H2) as Hr.
  rewrite lookup_to_values in Hr. record_inv Hr.
  apply getitem_to_values_inv in Hst as (st' & [= <-] & Hst).
  apply getitem_to_values_inv in Hds as (ds' & [= <-] & Hds).
  exists (before_space title), st, ds. rewrite Hr'.
  rewrite enriched_title, enriched_description. auto.
Qed.

Lemma description_is_joined_witness :
  exists h',
    process_data family [0%nat; 1%nat; 2%nat] first_february "1" "My organization"
      = Ok (h', [0%nat; 1%nat; 2%nat])
    /\ exists title st ds,
         getitem (family !!! 2%nat) "service_type" = Ok st
         /\ getitem (family !!! 2%nat) "description" = Ok ds
         /\ getitem (h' !!! 2%nat) "title" = Ok (VStr title)
         /\ getitem (h' !!! 2%nat) "description"
              = Ok (VStr (title ++ " " ++ st ++ " " ++ ds)).
Proof.
  eexists. split; [vm_compute; reflexivity|].
  refine (description_is_joined family [0%nat; 1%nat; 2%nat] first_february
            "1" "My organization" _ [0%nat; 1%nat; 2%nat] [0%nat; 1%nat] 2%nat [] _ _ _ _).
  - vm_compute. reflexivity.
  - reflexivity.
  - not_in_list.
  - not_in_list.
Defined.

(** The orphan of the sample batch has no title: its description starts
    with the space that follows the empty title. *)
Example description_of_an_orphan :
  exists h',
    process_data family [0%nat; 1%nat; 2%nat] first_february "1" "My organization"
      = Ok (h', [0%nat; 1%nat; 2%nat])
    /\ getitem (h' !!! 2%nat) "description" = Ok (VStr " storage daily").
Proof. eexists. split; vm_compute; reflexivity. Qed.

(** A record listed more than once is cut twice: the second pass finds a
    quantity without a space and leaves [usage_unit] empty. *)
Theorem usage_unit_of_repeated_record h items d aid an h' out l1 a l2 :
  process_data h items d aid an = Ok (h', out) ->
  items = (l1 ++ a :: l2)%list ->
  a ∈ l1 ->
  getitem (h' !!! a) "usage_unit" = Ok (VStr "").
Proof.
  intros H -> Hin. apply process_data_inv in H as (nr & _ & H).
  rewrite process_loop_app in H.
  destruct (process_loop nr d aid an (to_values <$> h) l1 []) as [[h1 p1]|e] eqn:E1;
    [|discriminate H].
  set (Q := fun r : dict value =>
              exists q', getitem r "quantity" = Ok (VStr q') /\ split q' = [q']).
  assert (HQ : forall r r', process_record nr d aid an r = Ok r' -> Q r').
  { intros r r' Hr. record_inv Hr. subst r'. exists (before_space q).
    split; [apply enriched_quantity|apply before_space_no_space]. }
  assert (HU : forall r r', Q r -> process_record nr d aid an r = Ok r' ->
                 Q r' /\ getitem r' "usage_unit" = Ok (VStr "")).
  { intros r r' (q' & Hq' & Hs) Hr. split; [exact (HQ _ _ Hr)|].
    record_inv Hr. subst r'. rewrite Hq' in Hq. injection Hq as <-.
    rewrite enriched_usage_unit, Hs. reflexivity. }
  assert (H1 : Q (h1 !!! a)).
  { apply (process_loop_inv nr d aid an (fun _ => True) Q l1 a)
      with (h := to_values <$> h) (p := []) (out := p1); eauto. }
  apply (process_loop_inv nr d aid an Q
           (fun r => Q r /\ getitem r "usage_unit" = Ok (VStr "")) (a :: l2) a)
    with (h := h1) (p := p1) (out := out); auto.
  - intros r r' [Hr _] Hs. exact (HU _ _ Hr Hs).
  - right. split; [assumption|left].
Qed.

Lemma usage_unit_of_repeated_record_witness :
  exists h',
    process_data {[ 0%nat := compute_row ]} [0%nat; 0%nat] first_february "1"
      "My organization" = Ok (h', [0%nat; 0%nat])
    /\ getitem (h' !!! 0%nat) "usage_unit" = Ok (VStr "").
Proof.
  eexists. split; [vm_compute; reflexivity|].
  refine (usage_unit_of_repeated_record {[ 0%nat := compute_row ]} [0%nat; 0%nat]
            first_february "1" "My organization" _ [0%nat; 0%nat] [0%nat] 0%nat [] _ _ _).
  - vm_compute. reflexivity.
  - reflexivity.
  - left.
Defined.

(** ** The keys of a record, and the header *)

Lemma keys_setitem {V} (d : dict V) k v :
  keys (setitem d k v) = if decide (k ∈ keys d) then keys d else (keys d ++ [k])%list.
Proof.
  unfold keys. induction d as [|[k' v'] d IH]; simpl.
  - destruct (decide (k ∈ [])) as [Hin|_]; [inversion Hin|reflexivity].
  - destruct (String.eqb k' k) eqn:E; simpl.
    + apply String.eqb_eq in E. subst k'.
      destruct (decide (k ∈ k :: map fst d)) as [_|Hn]; [reflexivity|].
      exfalso. apply Hn. left.
    + apply String.eqb_neq in E. rewrite IH.
      destruct (decide (k ∈ map fst d)) as [Hin|Hn],
        (decide (k ∈ k' :: map fst d)) as [Hin'|Hn']; try reflexivity.
      * exfalso. apply Hn'. now right.
      * exfalso. apply elem_of_cons in Hin' as [->|?]; congruence.
Qed.

Lemma keys_to_values (d : dict string) : keys (to_values d) = keys d.
Proof.
  unfold keys, to_values. rewrite map_map. apply map_ext. now intros [k v].
Qed.

Lemma getitem_Ok_keys {V} (d : dict V) k v : getitem d k = Ok v -> k ∈ keys d.
Proof.
  unfold keys. induction d as [|[k' v'] d IH]; simpl; [discriminate|].
  destruct (String.eqb k' k) eqn:E.
  - apply String.eqb_eq in E. subst k'. intros _. left.
  - intros H. right. auto.
Qed.

Lemma getitem_raise {V} (d : dict V) k e : getitem d k = Raise e -> e = KeyError k.
Proof.
  induction d as [|[k' v'] d IH]; simpl; [congruence|].
  destruct (String.eqb k' k); [discriminate|assumption].
Qed.

Lemma getitem_keys {V} (d : dict V) k : k ∈ keys d -> exists v, getitem d k = Ok v.
Proof.
  intros Hin. destruct (getitem d k) as [v|e] eqn:E; [eauto|exfalso].
  unfold keys in Hin. induction d as [|[k' v'] d IH]; simpl in *; [inversion Hin|].
  destruct (String.eqb k' k) eqn:Ek; [discriminate|].
  apply String.eqb_neq in Ek. apply elem_of_cons in Hin as [->|Hin]; [congruence|auto].
Qed.

(** Assigning a key that is there, or one more at the end. *)
Lemma keys_setitem_in {V} (d : dict V) k v : k ∈ keys d -> keys (setitem d k v) = keys d.
Proof. intros Hin. rewrite keys_setitem. now destruct (decide (k ∈ keys d)). Qed.

Lemma keys_setitem_new {V} (d : dict V) k v :
  k ∉ keys d -> keys (setitem d k v) = (keys d ++ [k])%list.
Proof. intros Hin. rewrite keys_setitem. now destruct (decide (k ∈ keys d)). Qed.

Lemma filter_new_nil (ks ws : list string) :
  (forall w, w ∈ ws -> w ∈ ks) -> filter (fun k => k ∉ ks) ws = [].
Proof.
  induction ws as [|w ws IH]; intros H; [reflexivity|].
  rewrite filter_cons. destruct (decide (w ∉ ks)) as [Hn|_].
  - exfalso. apply Hn, H. left.
  - apply IH. intros w' Hw'. apply H. now right.
Qed.

Lemma filter_new_snoc (ks ws : list string) (w : string) :
  w ∉ ws -> filter (fun k => k ∉ (ks ++ [w])%list) ws = filter (fun k => k ∉ ks) ws.
Proof.
  induction ws as [|w' ws IH]; intros Hw; [reflexivity|].
  apply not_elem_of_cons in Hw as [Hne Hw].
  rewrite !filter_cons, (IH Hw).
  destruct (decide (w' ∉ (ks ++ [w])%list)) as [H1|H1], (decide (w' ∉ ks)) as [H2|H2];
    try reflexivity; exfalso.
  - apply H2. intros Hin. apply H1, elem_of_app. now left.
  - apply H1. intros Hin. apply elem_of_app in Hin as [Hin|Hin]; [contradiction|].
    apply list_elem_of_singleton in Hin. congruence.
Qed.

(** Assigning the keys [ws] one after the other. *)
Lemma keys_assigned (ws : list string) :
  NoDup ws ->
  forall (d d' : dict value),
    (exists vs, length vs = length ws
                /\ d' = fold_left (fun r kv => setitem r (fst kv) (snd kv)) (zip ws vs) d) ->
    keys d' = (keys d ++ filter (fun k => k ∉ keys d) ws)%list.
Proof.
  induction ws as [|w ws IH]; intros Hnd d d' (vs & Hlen & ->).
  - destruct vs; [|discriminate]. simpl. now rewrite app_nil_r.
  - destruct vs as [|v vs]; [discriminate|]. simpl in Hlen. injection Hlen as Hlen.
    apply NoDup_cons in Hnd as [Hw Hnd]. simpl.
    rewrite (IH Hnd (setitem d w v) _ (ex_intro _ vs (conj Hlen eq_refl))).
    rewrite filter_cons. rewrite keys_setitem.
    destruct (decide (w ∈ keys d)) as [Hin|Hn].
    + destruct (decide (w ∉ keys d)); [contradiction|reflexivity].
    + destruct (decide (w ∉ keys d)); [|contradiction].
      rewrite filter_new_snoc by assumption. now rewrite <- app_assoc.
Qed.

Lemma NoDup_written_keys : NoDup written_keys.
Proof.
  unfold written_keys.
  repeat (apply NoDup_cons; split; [not_in_list|]). apply NoDup_nil_2.
Qed.

Lemma keys_enriched r title d last aid an st ds q price :
  keys (enriched r title d last aid an st ds q price) = keys_after (keys r).
Proof.
  unfold keys_after. apply (keys_assigned written_keys NoDup_written_keys).
  exists [VStr (before_space title); VStr (strftime d); VStr (strftime last);
          VStr aid; VStr an; VStr (join [before_space title; st; ds]);
          VStr (nth 1 (split q) ""); VStr (before_space q); VFloat price].
  split; reflexivity.
Qed.

Lemma keys_after_title (ks : list string) :
  "title" ∉ ks -> keys_after (ks ++ ["title"])%list = keys_after ks.
Proof.
  intros Hn. unfold keys_after.
  change written_keys with ("title" :: tl written_keys).
  set (rest := tl written_keys).
  assert (Hr : "title" ∉ rest) by (unfold rest; simpl; not_in_list).
  clearbody rest. rewrite !filter_cons.
  destruct (decide ("title" ∉ (ks ++ ["title"])%list)) as [H1|_].
  { exfalso. apply H1, elem_of_app. right. left. }
  destruct (decide ("title" ∉ ks)); [|contradiction].
  rewrite filter_new_snoc by assumption. now rewrite <- app_assoc.
Qed.

Lemma keys_after_idem (ks : list string) : keys_after (keys_after ks) = keys_after ks.
Proof.
  unfold keys_after at 1. rewrite filter_new_nil, app_nil_r; [reflexivity|].
  intros w Hw. unfold keys_after. apply elem_of_app.
  destruct (decide (w ∈ ks)) as [Hin|Hn]; [now left|right].
  apply list_elem_of_filter. auto.
Qed.

Lemma keys_process_record nr d aid an r r' :
  process_record nr d aid an r = Ok r' -> keys r' = keys_after (keys r).
Proof.
  intros Hr. record_inv Hr. subst r'. rewrite keys_enriched.
  unfold with_parent_title in *. destruct (ne_empty ppid).
  - rewrite keys_setitem. destruct (decide ("title" ∈ keys r)); [reflexivity|].
    now apply keys_after_title.
  - reflexivity.
Qed.


(** The columns of a record of a batch that is transformed are its own, in
    their order, followed by those of [title], [billing_start],
    [billing_end], [billing_account_id], [billing_account_name],
    [description], [usage_unit], [quantity] and [list_unit_price] it did
    not have, in this order. *)
Theorem columns_are_kept_and_appended h items d aid an h' out a :
  process_data h items d aid an = Ok (h', out) ->
  a ∈ items ->
  keys (h' !!! a)
  = (keys (h !!! a) ++ filter (fun k => k ∉ keys (h !!! a)) written_keys)%list.
Proof.
  intros H Hin. apply process_data_inv in H as (nr & _ & H).
  fold (keys_after (keys (h !!! a))).
  apply (process_loop_inv nr d aid an (fun r => keys r = keys (h !!! a))
           (fun r => keys r = keys_after (keys (h !!! a))) items a)
    with (h := to_values <$> h) (p := []) (out := out); auto.
  - intros r r' Hk Hr. now rewrite (keys_process_record _ _ _ _ _ _ Hr), Hk.
  - intros r r' Hk Hr. rewrite (keys_process_record _ _ _ _ _ _ Hr), Hk.
    apply keys_after_idem.
  - right. split; [|assumption]. rewrite lookup_to_values. apply keys_to_values.
Qed.

Lemma columns_are_kept_and_appended_witness :
  exists h',
    process_data {[ 0%nat := compute_row; 1%nat := bare_child_row ]} [0%nat; 1%nat]
      first_february "1" "My organization" = Ok (h', [0%nat; 1%nat])
    /\ keys (h' !!! 1%nat)
       = ["parent_service_id"; "service_type"; "description"; "quantity"; "subotal";
          "title"; "billing_start"; "billing_end"; "billing_account_id";
          "billing_account_name"; "usage_unit"; "list_unit_price"].
Proof.
  eexists. split; [vm_compute; reflexivity|].
  refine (eq_trans
            (columns_are_kept_and_appended
               {[ 0%nat := compute_row; 1%nat := bare_child_row ]} [0%nat; 1%nat]
               first_february "1" "My organization" _ [0%nat; 1%nat] 1%nat _ _) _).
  - vm_compute. reflexivity.
  - right. left.
  - vm_compute. reflexivity.
Defined.

(** ** Which batches are transformed *)

Lemma build_named_resources_inv h items a :
  a ∈ items ->
  forall acc nr,
    build_named_resources h items acc = Ok nr ->
    exists ppid,
      getitem (h !!! a) "parent_service_id" = Ok ppid
      /\ (ppid = "" ->
          exists t, getitem (h !!! a) "title" = Ok t
                    /\ (t <> "" -> exists sid, getitem (h !!! a) "service_id" = Ok sid)).
Proof.
  induction items as [|b items IH]; intros Hin acc nr H; [inversion Hin|].
  simpl in H. bind_inv H. rename a0 into ppid.
  assert (Hrest : forall acc', build_named_resources h items acc' = Ok nr ->
            a <> b ->
            exists ppid,
              getitem (h !!! a) "parent_service_id" = Ok ppid
              /\ (ppid = "" ->
                  exists t, getitem (h !!! a) "title" = Ok t
                            /\ (t <> "" -> exists sid, getitem (h !!! a) "service_id" = Ok sid))).
  { intros acc' H' Hne. apply elem_of_cons in Hin as [?|Hin]; [contradiction|].
    exact (IH Hin _ _ H'). }
  destruct (decide (a = b)) as [->|Hne].
  - exists ppid. split; [assumption|]. intros ->. simpl in H.
    bind_inv H. rename a into t. exists t. split; [reflexivity|].
    intros Ht. apply String.eqb_neq in Ht. rewrite Ht in H. cbn [negb] in H.
    bind_inv H. eauto.
  - destruct (String.eqb ppid ""); [|eauto].
    bind_inv H. destruct (negb (String.eqb a0 "")); [|eauto].
    bind_inv H. eauto.
Qed.

Lemma build_named_resources_accepted h items :
  (forall a, a ∈ items -> accepted (h !!! a)) ->
  forall acc, exists nr, build_named_resources h items acc = Ok nr.
Proof.
  induction items as [|a items IH]; intros Hall acc; simpl; [eauto|].
  assert (Hrest : forall acc', exists nr, build_named_resources h items acc' = Ok nr).
  { apply IH. intros b Hb. apply Hall. now right. }
  destruct (Hall a) as (ppid & st & ds & q & s & x & y & Hp & Ht & _); [left|].
  rewrite Hp. cbn [bind]. destruct (String.eqb ppid "") eqn:Ep; [|apply Hrest].
  apply String.eqb_eq in Ep. destruct (Ht Ep) as (t & Ht' & Hsid).
  rewrite Ht'. cbn [bind]. destruct (String.eqb t "") eqn:Et; cbn [negb]; [apply Hrest|].
  apply String.eqb_neq in Et. destruct (Hsid Et) as [sid ->]. cbn [bind]. apply Hrest.
Qed.

Lemma build_named_resources_raise h items :
  forall acc e,
    build_named_resources h items acc = Raise e ->
    exists k, e = KeyError k /\ k ∈ ["parent_service_id"; "title"; "service_id"].
Proof.
  induction items as [|a items IH]; intros acc e H; simpl in H; [discriminate|].
  destruct (getitem (h !!! a) "parent_service_id") as [ppid|e1] eqn:E1; cbn [bind] in H.
  2: { injection H as <-. apply getitem_raise in E1. exists "parent_service_id".
       split; [assumption|repeat constructor]. }
  destruct (String.eqb ppid ""); [|eauto].
  destruct (getitem (h !!! a) "title") as [t|e2] eqn:E2; cbn [bind] in H.
  2: { injection H as <-. apply getitem_raise in E2. exists "title".
       split; [assumption|repeat constructor]. }
  destruct (negb (String.eqb t "")); [|eauto].
  destruct (getitem (h !!! a) "service_id") as [sid|e3] eqn:E3; cbn [bind] in H.
  2: { injection H as <-. apply getitem_raise in E3. exists "service_id".
       split; [assumption|repeat constructor]. }
  eauto.
Qed.

Lemma process_record_accepted nr d aid an row :
  valid_datetime d = true ->
  accepted row ->
  exists r', process_record nr d aid an (to_values row) = Ok r'.
Proof.
  intros Hv (ppid & st & ds & q & s & x & y & Hp & Ht & Hst & Hds & Hq & Hs & Hx & Hy & Hz).
  destruct (billing_end_date d Hv) as [Hn Hl].
  assert (Htitle : exists t, getitem (with_parent_title nr (to_values row) (VStr ppid)) "title"
                             = Ok (VStr t)).
  { unfold with_parent_title, ne_empty.
    destruct (String.eqb ppid "") eqn:Ep; cbn [negb].
    - apply String.eqb_eq in Ep. destruct (Ht Ep) as (t & Ht' & _).
      rewrite (getitem_to_values_Ok _ _ _ Ht'). eauto.
    - rewrite getitem_setitem_eq. eauto. }
  destruct Htitle as [t Htitle].
  rewrite (process_record_run nr d aid an (to_values row) (VStr ppid) t st ds q _ _
             (getitem_to_values_Ok _ _ _ Hp) Htitle
             (getitem_to_values_Ok _ _ _ Hst) (getitem_to_values_Ok _ _ _ Hds)
             (getitem_to_values_Ok _ _ _ Hq) Hn Hl).
  rewrite (getitem_to_values_Ok _ _ _ Hs). simpl. rewrite Hx, Hy. cbn [bind].
  unfold float_div. rewrite Hz. cbn [bind]. eauto.
Qed.


(** Every record of a batch that is transformed has the fields
    [parent_service_id], [service_type], [description], [quantity] and
    [subotal], a [title] when it has no parent and a [service_id] when it
    has a title and no parent; its [subotal] and the first piece of its
    quantity are numbers, and that piece is not zero.  A batch with a
    record that misses one of these is not transformed. *)
Theorem transformed_records_are_accepted h items d aid an h' out a :
  process_data h items d aid an = Ok (h', out) ->
  a ∈ items ->
  accepted (h !!! a).
Proof.
  intros H Hin. apply process_data_inv in H as (nr & Hnr & H).
  destruct (build_named_resources_inv h items a Hin _ _ Hnr) as (p & Hp & Ht).
  destruct (process_loop_first _ _ _ _ _ _ _ _ _ _ H Hin) as [r1 Hr1].
  rewrite lookup_to_values in Hr1. record_inv Hr1.
  apply getitem_to_values_inv in Hst as (st' & [= <-] & Hst).
  apply getitem_to_values_inv in Hds as (ds' & [= <-] & Hds).
  apply getitem_to_values_inv in Hq as (q' & [= <-] & Hq).
  apply getitem_to_values_inv in Hsub as (s & -> & Hs).
  apply float_of_value_str in Hx.
  exists p, st, ds, q, s, x, y. repeat split; assumption.
Qed.

Lemma transformed_records_are_accepted_witness :
  exists h',
    process_data {[ 0%nat := compute_row; 1%nat := bare_child_row ]} [0%nat; 1%nat]
      first_february "1" "My organization" = Ok (h', [0%nat; 1%nat])
    /\ accepted (({[ 0%nat := compute_row; 1%nat := bare_child_row ]}
                   : gmap nat (dict string)) !!! 1%nat).
Proof.
  eexists. split; [vm_compute; reflexivity|].
  refine (transformed_records_are_accepted
            {[ 0%nat := compute_row; 1%nat := bare_child_row ]} [0%nat; 1%nat]
            first_february "1" "My organization" _ [0%nat; 1%nat] 1%nat _ _).
  - vm_compute. reflexivity.
  - right. left.
Defined.

(** Conversely, on a date that exists, a batch of distinct records that
    all have these fields and numbers is transformed; a child needs
    neither a [title] nor a [service_id]. *)
Theorem accepted_records_are_transformed h items d aid an :
  NoDup items ->
  valid_datetime d = true ->
  (forall a, a ∈ items -> accepted (h !!! a)) ->
  exists h', process_data h items d aid an = Ok (h', items).
Proof.
  intros Hnd Hv Hall. unfold process_data.
  destruct (build_named_resources_accepted h items Hall ∅) as [nr ->]. cbn [bind].
  apply (process_loop_distinct nr d aid an items (to_values <$> h) [] Hnd).
  intros a Ha. rewrite lookup_to_values.
  exact (process_record_accepted nr d aid an (h !!! a) Hv (Hall a Ha)).
Qed.

Lemma accepted_bare_child_row : accepted bare_child_row.
Proof.
  exists "srv-1", "storage", "daily", "2 GB", "3".
  eexists. eexists. repeat split; try (vm_compute; reflexivity); discriminate.
Qed.

Lemma accepted_records_are_transformed_witness :
  exists h',
    process_data {[ 7%nat := bare_child_row ]} [7%nat] first_february "1" "My organization"
      = Ok (h', [7%nat]).
Proof.
  apply (accepted_records_are_transformed {[ 7%nat := bare_child_row ]} [7%nat]
           first_february "1" "My organization").
  - apply NoDup_singleton.
  - reflexivity.
  - intros a Ha. apply list_elem_of_singleton in Ha. subst a.
    exact accepted_bare_child_row.
Defined.

(** A record without [parent_service_id] stops the run before any record
    is transformed: whatever else the batch holds, [process_data] raises a
    [KeyError] for one of the three fields the table reads, [main] prints
    it and writes no file. *)
Theorem missing_parent_service_id_is_a_key_error files a rows row e0 :
  files !! input_file a = Some rows ->
  row ∈ rows ->
  getitem row "parent_service_id" = Raise e0 ->
  exists k,
    k ∈ ["parent_service_id"; "title"; "service_id"]
    /\ process_data (store_of rows) (addresses rows) (invoice_date a)
         (billing_account_id a) (billing_account_name a) = Raise (KeyError k)
    /\ main files a = [Printed (Error (KeyError k))].
Proof.
  intros Hf Hin Hmiss.
  destruct (elem_of_addresses rows row Hin) as (i & Hi & Hrow).
  destruct (build_named_resources (store_of rows) (addresses rows) ∅) as [nr|e] eqn:E.
  - destruct (build_named_resources_inv _ _ _ Hi _ _ E) as (p & Hp & _).
    rewrite Hrow in Hp. congruence.
  - destruct (build_named_resources_raise _ _ _ _ E) as (k & -> & Hk).
    assert (Hp : process_data (store_of rows) (addresses rows) (invoice_date a)
                   (billing_account_id a) (billing_account_name a) = Raise (KeyError k)).
    { unfold process_data. now rewrite E. }
    exists k. split; [assumption|]. split; [assumption|].
    exact (main_of_raise _ _ _ _ Hf Hp).
Qed.

Lemma missing_parent_service_id_is_a_key_error_witness :
  exists k,
    k ∈ ["parent_service_id"; "title"; "service_id"]
    /\ process_data (store_of [zero_row; headless_row]) (addresses [zero_row; headless_row])
         (invoice_date default_args) (billing_account_id default_args)
         (billing_account_name default_args) = Raise (KeyError k)
    /\ main {[ "input.csv" := [zero_row; headless_row] ]} default_args
       = [Printed (Error (KeyError k))].
Proof.
  apply (missing_parent_service_id_is_a_key_error
           {[ "input.csv" := [zero_row; headless_row] ]} default_args
           [zero_row; headless_row] headless_row (KeyError "parent_service_id")).
  - reflexivity.
  - right. left.
  - reflexivity.
Defined.

(** When the input path is not a file, [main] prints the error that names
    the path; it reads nothing and writes nothing. *)
Theorem missing_input_file_is_reported files a :
  files !! input_file a = None ->
  main files a = [Printed (Error (FileNotFoundError (input_file a)))].
Proof. intros Hf. unfold main, validate_input_file. now rewrite Hf. Qed.

Lemma missing_input_file_is_reported_witness :
  main {[ "other.csv" := [compute_row] ]} default_args
  = [Printed (Error (FileNotFoundError "input.csv"))].
Proof.
  apply (missing_input_file_is_reported {[ "other.csv" := [compute_row] ]} default_args).
  reflexivity.
Defined.

(** ** Writing the file *)






(** The cells of the two rows above: in the order of the header, the
    missing ones empty. *)
Example cells_follow_the_header :
  map (cells ["title"; "quantity"; "usage_unit"])
    [[("quantity", VStr "5"); ("title", VStr "Compute")]; [("title", VStr "Disk")]]
  = [[VStr "Compute"; VStr "5"; VStr ""]; [VStr "Disk"; VStr ""; VStr ""]].
Proof. reflexivity. Qed.



(** ** A run that succeeds *)



(** The run on the sample batch: the file it writes when the output file
    is opened, and the line it prints when it is not. *)
Example output_of_family :
  exists next,
    main {[ "input.csv" := [compute_row; child_row; orphan_row] ]} default_args
    = [Opening "output.csv" next]
    /\ next (Ok tt)
       = [Wrote "output.csv"
            ["service_id"; "parent_service_id"; "title"; "service_type"; "description";
             "quantity"; "subotal"; "billing_start"; "billing_end"; "billing_account_id";
             "billing_account_name"; "usage_unit"; "list_unit_price"]
            [[VStr "srv-1"; VStr ""; VStr "Compute"; VStr "server";
              VStr "Compute server monthly"; VStr "5"; VStr "50"; VStr "01.02.24";
              VStr "29.02.24"; VStr "1"; VStr "My organization"; VStr "hours"; VFloat ten];
             [VStr "srv-2"; VStr "srv-1"; VStr "Compute"; VStr "storage";
              VStr "Compute storage daily"; VStr "2"; VStr "3"; VStr "01.02.24";
              VStr "29.02.24"; VStr "1"; VStr "My organization"; VStr "";
              VFloat (S754_finite false 6755399441055744 (-52))];
             [VStr "srv-3"; VStr "srv-9"; VStr ""; VStr "storage";
              VStr " storage daily"; VStr "2"; VStr "3"; VStr "01.02.24";
              VStr "29.02.24"; VStr "1"; VStr "My organization"; VStr "";
              VFloat (S754_finite false 6755399441055744 (-52))]];
          Printed (Complete "output.csv")]
    /\ next (Raise (FileNotFoundError "output.csv"))
       = [Printed (Error (FileNotFoundError "output.csv"))].
Proof.
  eexists. split; [vm_compute; reflexivity|]. split; vm_compute; reflexivity.
Qed.

(** ** The default invoice date *)

(** Without [--invoice-date] the invoice date is the first day of the
    current month, so the billing period of every record is the whole
    current month: [billing_start] is its first day and [billing_end] its
    last. *)
Theorem default_period_is_the_current_month now :
  valid_datetime now = true ->
  exists d,
    default_invoice_date now = Ok d
    /\ d = first_of_month now
    /\ valid_datetime d = true
    /\ forall h items aid an h' out a,
         process_data h items d aid an = Ok (h', out) ->
         a ∈ items ->
         getitem (h' !!! a) "billing_start"
           = Ok (VStr ("01." ++ pad2 (month now) ++ "." ++ pad2 (year now mod 100)))
         /\ getitem (h' !!! a) "billing_end" = Ok (VStr (strftime (end_of_month now))).
Proof.
  intros Hv. pose proof (valid_datetime_spec now Hv) as (Hy & Hm & Hd).
  pose proof (last_day_bounds (year now) (month now)) as Hl.
  assert (Hdef : default_invoice_date now = Ok (first_of_month now)).
  { unfold default_invoice_date, replace_day.
    rewrite days_in_month_last by assumption. simpl.
    replace (1 <=? last_day_of_month (year now) (month now)) with true
      by (symmetry; apply Z.leb_le; lia).
    reflexivity. }
  assert (Hv1 : valid_datetime (first_of_month now) = true).
  { unfold valid_datetime. simpl. rewrite days_in_month_last by assumption.
    rewrite !andb_true_iff, !Z.leb_le. lia. }
  exists (first_of_month now). repeat (split; [assumption || reflexivity|]).
  intros h items aid an h' out a H Hin. split.
  - apply (process_data_field _ _ _ _ _ _ _ _ _ _ H Hin).
    intros nr r r' Hr. record_inv Hr. subst r'. apply enriched_billing_start.
  - apply (process_data_field _ _ _ _ _ _ _ _ _ _ H Hin).
    intros nr r r' Hr. record_inv Hr. subst r'.
    destruct (billing_end_date _ Hv1) as [Hn' Hl'].
    change (replace_day (first_of_month now) (last_day_of_month (year now) (month now))
            = Ok (end_of_month now)) in Hl'.
    rewrite Hn' in Hn. injection Hn as <-. rewrite Hl' in Hlast. injection Hlast as <-.
    apply enriched_billing_end.
Qed.

Lemma default_period_is_the_current_month_witness :
  exists d,
    default_invoice_date mid_february = Ok d
    /\ d = first_of_month mid_february
    /\ valid_datetime d = true
    /\ forall h items aid an h' out a,
         process_data h items d aid an = Ok (h', out) ->
         a ∈ items ->
         getitem (h' !!! a) "billing_start"
           = Ok (VStr ("01." ++ pad2 (month mid_february) ++ "."
                       ++ pad2 (year mid_february mod 100)))
         /\ getitem (h' !!! a) "billing_end"
              = Ok (VStr (strftime (end_of_month mid_february))).
Proof.
  apply (default_period_is_the_current_month mid_february). reflexivity.
Defined.

(** Started on 15.02.2024 without an invoice date, the run bills from
    01.02.24 to 29.02.24. *)
Example default_period_in_february :
  default_invoice_date mid_february = Ok first_february
  /\ "01." ++ pad2 (month mid_february) ++ "." ++ pad2 (year mid_february mod 100)
     = "01.02.24"
  /\ strftime (end_of_month mid_february) = "29.02.24".
Proof. repeat split; vm_compute; reflexivity. Qed.
